(** * CQL value decoder of the [ccassandra] extension: model and properties

    Shallow embedding of [src/ccassandra/cql_types.cpp]: the per-type
    [Deserialize] methods, [ResolveSubtypes] and the composite types'
    [FromPython] constructors, with the properties of the decoder stated
    and proved over them. *)

From Stdlib Require Import ZArith List Lia Bool.
From Stdlib Require Import Strings.Byte Strings.Ascii Strings.String.
From Stdlib Require Import Numbers.DecimalString Numbers.DecimalZ.
From Stdlib Require Import QArith.
From stdpp Require Import base list strings gmap.

Import ListNotations.
Local Open Scope Z_scope.
Set Warnings "-register-all".

(** ** Octets and fixed-width integers *)

Module Marshal.

Definition octet (b : byte) : Z := Z.of_N (Byte.to_N b).

(** Big-endian unsigned value of a run of octets. *)
Definition UnpackUnsigned (data : list byte) : Z :=
  fold_left (fun acc b => acc * 256 + octet b) data 0.

(** Two's-complement reading of an unsigned [bits]-bit pattern. *)
Definition as_signed (bits : Z) (u : Z) : Z :=
  if u <? 2 ^ (bits - 1) then u else u - 2 ^ bits.

(** Conversions between C++ integer types, wrap-around written out. *)
Definition to_int32 (z : Z) : Z := as_signed 32 (z mod 2 ^ 32).
Definition to_size_t (z : Z) : Z := z mod 2 ^ 64.
Definition to_ssize_t (z : Z) : Z := as_signed 64 (z mod 2 ^ 64).

(** Modelled from the spec: [UnpackInt16], [UnpackInt32] and [UnpackInt64]
    of [marshal.hpp], the fixed-width big-endian signed integer decoders
    of the primitive codec; they read the first 2, 4 and 8 octets. *)
Definition UnpackInt16 (data : list byte) : Z :=
  as_signed 16 (UnpackUnsigned (firstn 2 data)).
Definition UnpackInt32 (data : list byte) : Z :=
  as_signed 32 (UnpackUnsigned (firstn 4 data)).
Definition UnpackInt64 (data : list byte) : Z :=
  as_signed 64 (UnpackUnsigned (firstn 8 data)).

(** Modelled from the spec: the integer read by [UnmarshalVarint] of
    [marshal.hpp], a two's-complement big-endian signed integer of
    arbitrary precision over [size] octets; no octet gives 0. *)
Definition UnpackVarint (data : list byte) (size : Z) : Z :=
  if size =? 0 then 0
  else as_signed (8 * size) (UnpackUnsigned (firstn (Z.to_nat size) data)).

End Marshal.
Export Marshal.

(** ** Buffer *)

(** Modelled from the spec: the [Buffer] class of [cql_types.hpp], a cursor
    over a fixed window of octets.  The record holds the part of the window
    not consumed yet. *)
Record Buffer : Type := mkBuffer { _data : list byte }.

Definition Residual (buffer : Buffer) : Z := Z.of_nat (length (_data buffer)).

(** [Consume n] gives the next [n] octets and the advanced cursor, or
    [None] (the NULL pointer) when fewer than [n] octets remain. *)
Definition Consume (size : Z) (buffer : Buffer) : option (list byte * Buffer) :=
  if size <=? Residual buffer
  then Some (firstn (Z.to_nat size) (_data buffer),
             mkBuffer (skipn (Z.to_nat size) (_data buffer)))
  else None.

(** ** Python objects and exceptions *)

Inductive PyExc : Type :=
| PyExc_EOFError
| PyExc_ValueError
| PyExc_TypeError
| PyExc_OSError
| PyExc_SystemError
| PyExc_AttributeError
| PyExc_InvalidOperation.

(** The pending Python exception of a call that returned NULL. *)
Record PyErr : Type := PyErr_SetString { exc_type : PyExc; exc_msg : string }.

(** Python values built by the decoder.  A slot of a tuple or list is
    [None] while it still holds the NULL pointer it was allocated with. *)
Inductive PyObject : Type :=
| Py_None
| PyBool (b : bool)
| PyInt (n : Z)
| PyLong (n : Z)
| PyString (s : string)
| PyDecimal (coefficient exponent : Z)
| PyTuple (ob_item : list (option PyObject))
| PyList (ob_item : list (option PyObject)).

(** A call that returns [PyObject*]: NULL with an exception set, or a value. *)
Definition PyResult : Type := (PyErr + PyObject)%type.

(** The spec's failure kinds. *)
Definition Truncated (e : PyErr) : Prop := exc_type e = PyExc_EOFError.
Definition Malformed (e : PyErr) : Prop :=
  exc_type e = PyExc_ValueError \/ exc_type e = PyExc_TypeError.

(** CPython's [PyErr_BadInternalCall ()]: [SystemError], with a message
    that starts with the file and the line of the call inside CPython.
    Those depend on the CPython build and are left as [<file>:<line>]; the
    properties below look at the type of this exception only. *)
Definition PyErr_BadInternalCall : PyErr :=
  PyErr_SetString PyExc_SystemError
    "<file>:<line>: bad argument to internal function".

(** CPython's [PyTuple_New] and [PyList_New]: a negative size is a bad
    internal call, otherwise every slot starts as NULL (memory is taken
    not to run out). *)
Definition PyTuple_New (size : Z) : PyErr + list (option PyObject) :=
  if size <? 0
  then inl PyErr_BadInternalCall
  else inr (replicate (Z.to_nat size) None).

Definition PyList_New (size : Z) : PyErr + list (option PyObject) :=
  if size <? 0
  then inl PyErr_BadInternalCall
  else inr (replicate (Z.to_nat size) None).

(** CPython's [PyTuple_SetItem] and [PyList_SetItem]: the slot is
    overwritten; an index out of range leaves the sequence as it is (the
    callers below do not look at the status returned). *)
Definition PyTuple_SetItem (tuple : list (option PyObject)) (i : nat)
    (o : PyObject) : list (option PyObject) := <[i := Some o]> tuple.

Definition PyList_SetItem (op : list (option PyObject)) (i : nat)
    (o : PyObject) : list (option PyObject) := <[i := Some o]> op.

(** ** Deserializers *)

(** [PyObject* Deserialize(Buffer& buffer, int protocolVersion)]: the
    result and the buffer as the call leaves it. *)
Definition Deserializer : Type := Buffer -> Z -> PyResult * Buffer.

Definition IMPLEMENT_SIMPLE_CQL_TYPE_DESERIALIZE (_desc : string) (_size : Z)
    (_unmarshal : list byte -> PyObject) : Deserializer :=
  fun buffer _ =>
    match Consume _size buffer with
    | None =>
        (inl (PyErr_SetString PyExc_EOFError
                (String.append "unexpected end of buffer deserializing " _desc)),
         buffer)
    | Some (data, buffer) => (inr (_unmarshal data), buffer)
    end.

(** Modelled from the spec: the [Unmarshal*] helpers of [marshal.hpp],
    which box the decoded primitive as a Python object. *)
Definition UnmarshalInt32 (data : list byte) : PyObject := PyInt (UnpackInt32 data).
Definition UnmarshalInt64 (data : list byte) : PyObject := PyLong (UnpackInt64 data).
Definition UnmarshalBoolean (data : list byte) : PyObject :=
  PyBool (negb (UnpackUnsigned (firstn 1 data) =? 0)).
Definition UnmarshalVarint (data : list byte) (size : Z) : PyResult :=
  inr (PyLong (UnpackVarint data size)).

Definition CqlInt32Type_Deserialize : Deserializer :=
  IMPLEMENT_SIMPLE_CQL_TYPE_DESERIALIZE "signed 32-bit integer" 4 UnmarshalInt32.
Definition CqlLongType_Deserialize : Deserializer :=
  IMPLEMENT_SIMPLE_CQL_TYPE_DESERIALIZE "signed 64-bit integer" 8 UnmarshalInt64.
Definition CqlBooleanType_Deserialize : Deserializer :=
  IMPLEMENT_SIMPLE_CQL_TYPE_DESERIALIZE "boolean" 1 UnmarshalBoolean.

(** The octets behind the pointer [Consume] returns.  A NULL pointer,
    which consuming the residual never gives, stands for no octet. *)
Definition octets (consumed : option (list byte * Buffer)) (buffer : Buffer)
    : list byte * Buffer :=
  match consumed with
  | Some (data, buffer) => (data, buffer)
  | None => ([], buffer)
  end.

Definition CqlBytesType_Deserialize : Deserializer :=
  fun buffer _ =>
    let size := Residual buffer in
    if size =? 0 then (inr (PyString ""), buffer)
    else
      let (data, buffer) := octets (Consume size buffer) buffer in
      (inr (PyString (string_of_list_byte data)), buffer).

Definition CqlIntegerType_Deserialize : Deserializer :=
  fun buffer _ =>
    let size := Residual buffer in
    let (data, buffer) := octets (Consume size buffer) buffer in
    (UnmarshalVarint data size, buffer).

(** ** DecimalType *)

(** CPython's [PyInt_FromLong]: boxes a C integer. *)
Definition PyInt_FromLong (ival : Z) : PyObject := PyInt ival.

(** The text ["%d"] prints for a Python integer: decimal digits, with a
    leading minus sign for a negative number. *)
Definition format_d (n : Z) : string := NilZero.string_of_int (Z.to_int n).

(** CPython's [PyString_Format] at the format ["%de%d"]: both arguments
    must be numbers. *)
Definition PyNumber_value (o : PyObject) : option Z :=
  match o with
  | PyInt n | PyLong n => Some n
  | _ => None
  end.

Definition PyString_Format_de (args : list PyObject) : PyResult :=
  match map PyNumber_value args with
  | [Some u; Some s] =>
      inr (PyString (String.append (format_d u) (String "e" (format_d s))))
  | _ => inl (PyErr_SetString PyExc_TypeError "%d format: a number is required")
  end.

(** Splits a decimal literal at its exponent marker, if it has one. *)
Fixpoint split_exponent (s : string) : string * option string :=
  match s with
  | EmptyString => (EmptyString, None)
  | String c s' =>
      if (Ascii.eqb c "e" || Ascii.eqb c "E")%bool then (EmptyString, Some s')
      else let (m, x) := split_exponent s' in (String c m, x)
  end.

(** Modelled from the spec: the materializer's arbitrary-precision decimal
    constructor ([decimal.Decimal]) on the literals the decoder hands it,
    an integer coefficient with an optional integer exponent.  The object
    built keeps coefficient and exponent apart, so nothing is rounded. *)
Definition decimal_Decimal (args : list PyObject) : PyResult :=
  match args with
  | [PyString s] =>
      let (m, x) := split_exponent s in
      match NilZero.int_of_string m,
            match x with
            | None => Some (Decimal.Pos Decimal.zero)
            | Some x => NilZero.int_of_string x
            end with
      | Some c, Some e => inr (PyDecimal (Z.of_int c) (Z.of_int e))
      | _, _ =>
          inl (PyErr_SetString PyExc_InvalidOperation "Invalid literal for Decimal")
      end
  | _ => inl (PyErr_SetString PyExc_TypeError "Cannot convert to Decimal")
  end.

(** The number a decimal object stands for: coefficient × 10^exponent. *)
Definition decimal_value (o : PyObject) : option Q :=
  match o with
  | PyDecimal c e => Some (inject_Z c * Qpower (10 # 1) e)%Q
  | _ => None
  end.

Section DecimalType.

(** The callable kept by the type object in [_pythonDecimalType]. *)
Variable _pythonDecimalType : list PyObject -> PyResult.

Definition CqlDecimalType_Deserialize : Deserializer :=
  fun buffer _ =>
    (* Deserialize the scale. *)
    match Consume 4 buffer with
    | None =>
        (inl (PyErr_SetString PyExc_EOFError
                "unexpected end of buffer deserializing decimal number"),
         buffer)
    | Some (scaleData, buffer) =>
        let negativeScale := UnpackInt32 scaleData in
        let scale := PyInt_FromLong (to_int32 (- negativeScale)) in
        (* Deserialize the unscaled value. *)
        let size := Residual buffer in
        let (data, buffer) := octets (Consume size buffer) buffer in
        match UnmarshalVarint data size with
        | inl e => (inl e, buffer)
        | inr unscaled =>
            (* Format the string representation of the decimal number. *)
            match PyString_Format_de [unscaled; scale] with
            | inl e => (inl e, buffer)
            | inr stringRepr => (_pythonDecimalType [stringRepr], buffer)
            end
        end
    end.

End DecimalType.

(** ** InetAddressType *)

Inductive address_family : Type := AF_INET | AF_INET6.

Definition INET6_ADDRSTRLEN : Z := 46.

Section InetAddressType.

(** The C library's [inet_ntop (af, src, dst, size)]: the presentation
    text written to [dst], or [None] when it returns NULL. *)
Variable inet_ntop : address_family -> list byte -> Z -> option string.

Definition CqlInetAddressType_Deserialize : Deserializer :=
  fun buffer _ =>
    let size := Residual buffer in
    if (negb (size =? 4) && negb (size =? 16))%bool
    then (inl (PyErr_SetString PyExc_ValueError
                 "expected buffer to either represent a 4 or 16 octet network address"),
          buffer)
    else
      let (data, buffer) := octets (Consume size buffer) buffer in
      match inet_ntop (if size =? 4 then AF_INET else AF_INET6)
                      data INET6_ADDRSTRLEN with
      | None =>
          (inl (PyErr_SetString PyExc_OSError "error converting Internet address"),
           buffer)
      | Some presentation => (inr (PyString presentation), buffer)
      end.

End InetAddressType.

(** ** TupleType *)

Section TupleType.

(** The loop [for (i = 0; i < _subtypes.size(); ++i)], entered at index
    [i] with the subtypes from [i] on still to visit.  Each subtype is
    given by its [Deserialize] method, the target of the virtual call
    [_subtypes[i]->Get()->Deserialize].  A [break] and the normal end of
    the loop both give the tuple and the count of missing items. *)
Fixpoint CqlTupleType_drain (subtypes : list Deserializer) (i : nat)
    (tuple : list (option PyObject)) (missing : nat)
    (buffer : Buffer) (protocolVersion : Z)
    : (PyErr + list (option PyObject) * nat) * Buffer :=
  match subtypes with
  | [] => (inr (tuple, missing), buffer)
  | subtype :: subtypes =>
      (* Read the size of the item. *)
      match Consume 4 buffer with
      | None => (inr (tuple, missing), buffer)
      | Some (sizeData, buffer) =>
          let size := UnpackInt32 sizeData in
          (* Create a local buffer for the item. *)
          if size <? 0
          then (inl (PyErr_SetString PyExc_ValueError "negative item size in tuple"),
                buffer)
          else
            match Consume (to_size_t size) buffer with
            | None =>
                (inl (PyErr_SetString PyExc_EOFError
                        "unexpected end of buffer while reading tuple"),
                 buffer)
            | Some (itemData, buffer) =>
                let itemBuffer := mkBuffer itemData in
                match fst (subtype itemBuffer protocolVersion) with
                | inl e => (inl e, buffer)
                | inr des =>
                    CqlTupleType_drain subtypes (S i)
                      (PyTuple_SetItem tuple i des) (missing - 1)%nat
                      buffer protocolVersion
                end
            end
      end
  end.

(** [while (missing--) PyTuple_SetItem(tuple, missing, Py_None);] *)
Fixpoint CqlTupleType_backfill (missing : nat)
    (tuple : list (option PyObject)) : list (option PyObject) :=
  match missing with
  | O => tuple
  | S missing =>
      CqlTupleType_backfill missing (PyTuple_SetItem tuple missing Py_None)
  end.

Definition CqlTupleType_Deserialize (_subtypes : list Deserializer)
    : Deserializer :=
  fun buffer protocolVersion =>
    (* Items in tuples are always encoded with at least protocol version 3. *)
    let protocolVersion := if protocolVersion <? 3 then 3 else protocolVersion in
    (* Initialize a tuple. *)
    match PyTuple_New (Z.of_nat (length _subtypes)) with
    | inl e => (inl e, buffer)
    | inr tuple =>
        (* Drain as many items from the buffer as possible. *)
        let missing := length _subtypes in
        match CqlTupleType_drain _subtypes 0 tuple missing
                buffer protocolVersion with
        | (inl e, buffer) => (inl e, buffer)
        | (inr (tuple, missing), buffer) =>
            (* Backfill with Nones. *)
            (inr (PyTuple (CqlTupleType_backfill missing tuple)), buffer)
        end
    end.

End TupleType.

(** ** ListType *)

Section ListType.

(** [_itemType->Get()->Deserialize]. *)
Variable _itemType : Deserializer.

Definition CqlListType_sizeSize (protocolVersion : Z) : Z :=
  if 3 <=? protocolVersion then 4 else 2.

(** The value of [protocolVersion >= 3 ? UnpackInt32(d) : UnpackInt16(d)],
    an [int]. *)
Definition CqlListType_unpack (protocolVersion : Z) (data : list byte) : Z :=
  if 3 <=? protocolVersion then UnpackInt32 data else UnpackInt16 data.

(** [std::size_t itemCount = ...]: the [int] converted to [size_t]. *)
Definition CqlListType_itemCount (protocolVersion : Z)
    (itemCountData : list byte) : Z :=
  to_size_t (CqlListType_unpack protocolVersion itemCountData).

(** The loop [for (i = 0; i < itemCount; ++i)], entered at index [i]
    with [remaining = itemCount - i] iterations to go. *)
Fixpoint CqlListType_drain (remaining : nat) (i : nat)
    (lst : list (option PyObject)) (buffer : Buffer) (protocolVersion : Z)
    : PyResult * Buffer :=
  match remaining with
  | O => (inr (PyList lst), buffer)
  | S remaining =>
      (* Read the size of the item. *)
      match Consume (CqlListType_sizeSize protocolVersion) buffer with
      | None => (inr (PyList lst), buffer)
      | Some (sizeData, buffer) =>
          let size := to_int32 (CqlListType_unpack protocolVersion sizeData) in
          (* Create a local buffer for the item. *)
          if size <? 0
          then (inl (PyErr_SetString PyExc_ValueError "negative item size in list"),
                buffer)
          else
            match Consume (to_size_t size) buffer with
            | None =>
                (inl (PyErr_SetString PyExc_EOFError
                        "unexpected end of buffer while reading list"),
                 buffer)
            | Some (itemData, buffer) =>
                let itemBuffer := mkBuffer itemData in
                match fst (_itemType itemBuffer protocolVersion) with
                | inl e => (inl e, buffer)
                | inr des =>
                    CqlListType_drain remaining (S i)
                      (PyList_SetItem lst i des) buffer protocolVersion
                end
            end
      end
  end.

(** The part of [Deserialize] after the item count has been read. *)
Definition CqlListType_items (itemCount : Z) : Deserializer :=
  fun buffer protocolVersion =>
    (* Initialize a list. *)
    match PyList_New (to_ssize_t itemCount) with
    | inl e => (inl e, buffer)
    | inr lst =>
        (* Drain the items from the list. *)
        CqlListType_drain (Z.to_nat itemCount) 0 lst buffer protocolVersion
    end.

Definition CqlListType_Deserialize : Deserializer :=
  fun buffer protocolVersion =>
    (* Determine the number of items in the list. *)
    match Consume (CqlListType_sizeSize protocolVersion) buffer with
    | None =>
        (inl (PyErr_SetString PyExc_EOFError
                "unexpected end of buffer while reading list"),
         buffer)
    | Some (itemCountData, buffer) =>
        CqlListType_items (CqlListType_itemCount protocolVersion itemCountData)
          buffer protocolVersion
    end.

End ListType.

(** ** The remaining scalar, text and temporal types *)

Section FloatTypes.

(** The helpers [UnmarshalFloat32] and [UnmarshalFloat64] of [marshal.hpp],
    which box an IEEE-754 number read from 4 and from 8 octets. *)
Variable UnmarshalFloat32 : list byte -> PyObject.
Variable UnmarshalFloat64 : list byte -> PyObject.

Definition CqlFloatType_Deserialize : Deserializer :=
  IMPLEMENT_SIMPLE_CQL_TYPE_DESERIALIZE "32-bit floating point number" 4
    UnmarshalFloat32.
Definition CqlDoubleType_Deserialize : Deserializer :=
  IMPLEMENT_SIMPLE_CQL_TYPE_DESERIALIZE "64-bit floating point number" 8
    UnmarshalFloat64.

End FloatTypes.

(** [size ? (const char* )(buffer.Consume(size)) : ""] *)
Definition residual_octets (buffer : Buffer) : list byte * Buffer :=
  let size := Residual buffer in
  if size =? 0 then ([], buffer) else octets (Consume size buffer) buffer.

Section Utf8Type.

(** CPython's [PyString_AsDecodedObject (str, "utf-8", "strict")]: the
    decoded text, or NULL with the codec's exception set. *)
Variable PyString_AsDecodedObject_utf8 : string -> PyResult.

Definition CqlUtf8Type_Deserialize : Deserializer :=
  fun buffer _ =>
    let (data, buffer) := residual_octets buffer in
    let str := string_of_list_byte data in
    (PyString_AsDecodedObject_utf8 str, buffer).

End Utf8Type.

Section UuidType.

(** The callable kept by the type object in [_pythonUuidType]. *)
Variable _pythonUuidType : list PyObject -> PyResult.

Definition CqlUuidType_Deserialize : Deserializer :=
  fun buffer _ =>
    let (data, buffer) := residual_octets buffer in
    let str := PyString (string_of_list_byte data) in
    (_pythonUuidType [Py_None; str], buffer).

End UuidType.

Section DateType.

(** [PyFloat_FromDouble (double (timestampMs) / 1000.0)]: the float object
    for a count of milliseconds, in seconds. *)
Variable PyFloat_FromDouble_seconds : Z -> PyObject.

(** The callable kept by the type object in
    [_pythonDatetimeUtcFromTimestamp]. *)
Variable _pythonDatetimeUtcFromTimestamp : list PyObject -> PyResult.

Definition CqlDateType_Deserialize : Deserializer :=
  fun buffer _ =>
    match Consume 8 buffer with
    | None =>
        (inl (PyErr_SetString PyExc_EOFError
                "unexpected end of buffer deserializing date"),
         buffer)
    | Some (data, buffer) =>
        let timestampMs := UnpackInt64 data in
        let pyTimestamp := PyFloat_FromDouble_seconds timestampMs in
        (_pythonDatetimeUtcFromTimestamp [pyTimestamp], buffer)
    end.

End DateType.


(** ** The type graph *)

(** Modelled from the spec: the class declarations of [cql_types.hpp].
    [CqlType] has one constructor per class, in the order of the spec's
    data model.  [CqlTypeReference] is the handle through which a
    composite type holds its subtypes, in its two flavours: a borrowed
    reference points to a simple-type singleton of the factory; an owned
    reference holds a composite instance of its own, which goes with it. *)
Inductive CqlType : Type :=
| CqlInt32Type
| CqlLongType
| CqlFloatType
| CqlDoubleType
| CqlBooleanType
| CqlBytesType
| CqlUtf8Type
| CqlUuidType
| CqlInetAddressType
| CqlDateType
| CqlIntegerType
| CqlDecimalType
| CqlTupleType (_subtypes : list CqlTypeReference)
| CqlListType (_itemType : CqlTypeReference)
with CqlTypeReference : Type :=
| Borrowed (referent : CqlType)
| Owned (referent : CqlType).

(** Modelled from the spec: [CqlTypeReference::Get], the referent. *)
Definition Get (r : CqlTypeReference) : CqlType :=
  match r with
  | Borrowed t | Owned t => t
  end.

Section Dispatch.

(** What the type objects were built with and call out to: the C library's
    conversion routine, the float helpers of [marshal.hpp], CPython's UTF-8
    decoder and float constructor, and the Python callables the decimal,
    UUID and date types keep. *)
Variable inet_ntop : address_family -> list byte -> Z -> option string.
Variable _pythonDecimalType : list PyObject -> PyResult.
Variable UnmarshalFloat32 : list byte -> PyObject.
Variable UnmarshalFloat64 : list byte -> PyObject.
Variable PyString_AsDecodedObject_utf8 : string -> PyResult.
Variable _pythonUuidType : list PyObject -> PyResult.
Variable PyFloat_FromDouble_seconds : Z -> PyObject.
Variable _pythonDatetimeUtcFromTimestamp : list PyObject -> PyResult.

(** The virtual method [CqlType::Deserialize]. *)
Fixpoint Deserialize (t : CqlType) : Deserializer :=
  match t with
  | CqlInt32Type => CqlInt32Type_Deserialize
  | CqlLongType => CqlLongType_Deserialize
  | CqlFloatType => CqlFloatType_Deserialize UnmarshalFloat32
  | CqlDoubleType => CqlDoubleType_Deserialize UnmarshalFloat64
  | CqlBooleanType => CqlBooleanType_Deserialize
  | CqlBytesType => CqlBytesType_Deserialize
  | CqlUtf8Type => CqlUtf8Type_Deserialize PyString_AsDecodedObject_utf8
  | CqlUuidType => CqlUuidType_Deserialize _pythonUuidType
  | CqlInetAddressType => CqlInetAddressType_Deserialize inet_ntop
  | CqlDateType =>
      CqlDateType_Deserialize PyFloat_FromDouble_seconds
        _pythonDatetimeUtcFromTimestamp
  | CqlIntegerType => CqlIntegerType_Deserialize
  | CqlDecimalType => CqlDecimalType_Deserialize _pythonDecimalType
  | CqlTupleType _subtypes =>
      CqlTupleType_Deserialize (map (fun r => Deserialize (Get r)) _subtypes)
  | CqlListType _itemType =>
      CqlListType_Deserialize (Deserialize (Get _itemType))
  end.

End Dispatch.

(** ** The C++ heap *)

(** The objects created by [new] and not yet deleted, counted. *)
Record Heap : Type := mkHeap { live : Z }.

Definition new (heap : Heap) : Heap := mkHeap (live heap + 1).
Definition free (heap : Heap) : Heap := mkHeap (live heap - 1).

(** [delete] on a type and on a reference.  [~CqlTupleType] deletes every
    subtype reference and [~CqlListType] its item type, as in the source.
    Modelled from the spec: [~CqlTypeReference]; deleting an owned
    reference deletes its referent, deleting a borrowed one leaves the
    factory's singleton alone. *)
Fixpoint delete_CqlType (t : CqlType) (heap : Heap) : Heap :=
  match t with
  | CqlTupleType _subtypes =>
      free ((fix each (it : list CqlTypeReference) (heap : Heap) : Heap :=
               match it with
               | [] => heap
               | r :: it => each it (delete_CqlTypeReference r heap)
               end) _subtypes heap)
  | CqlListType _itemType => free (delete_CqlTypeReference _itemType heap)
  | _ => free heap
  end
with delete_CqlTypeReference (r : CqlTypeReference) (heap : Heap) : Heap :=
  match r with
  | Borrowed _ => free heap
  | Owned t => free (delete_CqlType t heap)
  end.

(** [for (j = 0; j < subtypes.size(); ++j) delete subtypes[j];] *)
Definition delete_each (subtypes : list CqlTypeReference) (heap : Heap) : Heap :=
  fold_left (fun heap r => delete_CqlTypeReference r heap) subtypes heap.

(** The heap objects that go when a type, or a reference, is deleted. *)
Fixpoint footprint_CqlType (t : CqlType) : Z :=
  match t with
  | CqlTupleType _subtypes =>
      1 + fold_right (fun r n => footprint_CqlTypeReference r + n) 0 _subtypes
  | CqlListType _itemType => 1 + footprint_CqlTypeReference _itemType
  | _ => 1
  end
with footprint_CqlTypeReference (r : CqlTypeReference) : Z :=
  match r with
  | Borrowed _ => 1
  | Owned t => 1 + footprint_CqlType t
  end.

Definition footprint_each (subtypes : list CqlTypeReference) : Z :=
  fold_right (fun r n => footprint_CqlTypeReference r + n) 0 subtypes.

(** ** Type descriptors *)

(** The Python-side description of a CQL type, as far as the resolution
    looks at it: its name, and what the attribute [subtypes] holds. *)
Inductive PyCqlType : Type :=
| PyTypeObject (cassname : string) (subtypes : PySubtypes)
with PySubtypes : Type :=
| NoAttribute
| SubtypeTuple (items : list PyCqlType)
| SubtypeList (items : list PyCqlType)
| NotASequence.

Definition PyObject_GetAttrString_subtypes (o : PyCqlType) : PySubtypes :=
  match o with
  | PyTypeObject _ subtypes => subtypes
  end.

(** ** ResolveSubtypes and the composite constructors *)

Section ResolveSubtypes.

(** [factory.ReferenceFromPython]: a reference, or NULL with the Python
    exception set; the heap as the call leaves it. *)
Variable ReferenceFromPython :
  PyCqlType -> Heap -> (PyErr + CqlTypeReference) * Heap.

(** The second loop of [ResolveSubtypes], over the Python subtypes still
    to resolve.  The result is the status ([inr tt] for [true], [inl e]
    for [false] with [e] set), the vector [subtypes] and the heap. *)
Fixpoint ResolveSubtypes_each (pySubtypes : list PyCqlType)
    (subtypes : list CqlTypeReference) (heap : Heap)
    : (PyErr + unit) * list CqlTypeReference * Heap :=
  match pySubtypes with
  | [] => (inr tt, subtypes, heap)
  | pySubtype :: pySubtypes =>
      match ReferenceFromPython pySubtype heap with
      | (inl e, heap) => (inl e, [], delete_each subtypes heap)
      | (inr subtype, heap) =>
          ResolveSubtypes_each pySubtypes (subtypes ++ [subtype]) heap
      end
  end.

(** The first loops copy the items of the tuple or list to [pySubtypes];
    [PyTuple_GetItem] and [PyList_GetItem] give no NULL at an index within
    the size. *)
Definition ResolveSubtypes (pyCqlType : PyCqlType)
    (subtypes : list CqlTypeReference) (heap : Heap)
    : (PyErr + unit) * list CqlTypeReference * Heap :=
  match PyObject_GetAttrString_subtypes pyCqlType with
  | NoAttribute =>
      (inl (PyErr_SetString PyExc_AttributeError "subtypes"), subtypes, heap)
  | SubtypeTuple pySubtypes => ResolveSubtypes_each pySubtypes subtypes heap
  | SubtypeList pySubtypes => ResolveSubtypes_each pySubtypes subtypes heap
  | NotASequence =>
      (inl (PyErr_SetString PyExc_TypeError "invalid subtypes for tuple"),
       subtypes, heap)
  end.

Definition CqlTupleType_FromPython (pyCqlType : PyCqlType) (heap : Heap)
    : (PyErr + CqlType) * Heap :=
  match ResolveSubtypes pyCqlType [] heap with
  | (inl e, _, heap) => (inl e, heap)
  | (inr _, subtypes, heap) => (inr (CqlTupleType subtypes), new heap)
  end.

Definition CqlListType_FromPython (pyCqlType : PyCqlType) (heap : Heap)
    : (PyErr + CqlType) * Heap :=
  (* Attempt to resolve the subtypes. *)
  match ResolveSubtypes pyCqlType [] heap with
  | (inl e, _, heap) => (inl e, heap)
  | (inr _, subtypes, heap) =>
      (* Make sure there's only one subtype. *)
      match subtypes with
      | [itemType] => (inr (CqlListType itemType), new heap)
      | _ =>
          (inl (PyErr_SetString PyExc_TypeError "list does not have one subtype"),
           heap)
      end
  end.

(** [Resolved pySubtypes heap subtypes heap']: starting from [heap], the
    factory resolves the descriptors [pySubtypes] one after the other to
    the references [subtypes], and leaves [heap']. *)
Inductive Resolved
    : list PyCqlType -> Heap -> list CqlTypeReference -> Heap -> Prop :=
| Resolved_nil heap : Resolved [] heap [] heap
| Resolved_cons pySubtype pySubtypes heap subtype heap1 subtypes heap2 :
    ReferenceFromPython pySubtype heap = (inr subtype, heap1) ->
    Resolved pySubtypes heap1 subtypes heap2 ->
    Resolved (pySubtype :: pySubtypes) heap (subtype :: subtypes) heap2.

End ResolveSubtypes.

(** ** CqlTypeFactory *)

(** Modelled from the spec: [CqlTypeFactory::_simpleTypeNameMap] as the
    constructor of [cql_type_factory.cpp] fills it, one singleton per
    simple type under its canonical name. *)
Definition _simpleTypeNameMap : gmap string CqlType :=
  list_to_map
    [ ("Int32Type"%string, CqlInt32Type);
      ("LongType"%string, CqlLongType);
      ("FloatType"%string, CqlFloatType);
      ("DoubleType"%string, CqlDoubleType);
      ("BooleanType"%string, CqlBooleanType);
      ("BytesType"%string, CqlBytesType);
      ("UTF8Type"%string, CqlUtf8Type);
      ("UUIDType"%string, CqlUuidType);
      ("InetAddressType"%string, CqlInetAddressType);
      ("DateType"%string, CqlDateType);
      ("IntegerType"%string, CqlIntegerType);
      ("DecimalType"%string, CqlDecimalType) ].

(** Modelled from the spec: [CqlTypeFactory::ReferenceFromPython] of
    [cql_type_factory.cpp].  A name of the simple-type cache gives a
    borrowed reference to the singleton; the composite kinds go to their
    constructor and the new instance is wrapped as an owned reference; any
    other name is an unsupported type. *)
Fixpoint CqlTypeFactory_ReferenceFromPython (pyCqlType : PyCqlType) (heap : Heap)
    : (PyErr + CqlTypeReference) * Heap :=
  match pyCqlType with
  | PyTypeObject cassname _ =>
      match _simpleTypeNameMap !! cassname with
      | Some t => (inr (Borrowed t), new heap)
      | None =>
          if String.eqb cassname "TupleType" then
            match CqlTupleType_FromPython CqlTypeFactory_ReferenceFromPython
                    pyCqlType heap with
            | (inl e, heap) => (inl e, heap)
            | (inr t, heap) => (inr (Owned t), new heap)
            end
          else if String.eqb cassname "ListType" then
            match CqlListType_FromPython CqlTypeFactory_ReferenceFromPython
                    pyCqlType heap with
            | (inl e, heap) => (inl e, heap)
            | (inr t, heap) => (inr (Owned t), new heap)
            end
          else (inl (PyErr_SetString PyExc_ValueError "unsupported type"), heap)
      end
  end.

(** ** The C library's address presentation *)

(** A model of [inet_ntop] as the C library implements it (the BIND
    routines [inet_ntop4] and [inet_ntop6]), to run the decoder on concrete
    addresses.  The conversion fails when the text and its terminator do
    not fit in [size] octets. *)
Module Libc.

Definition format_u (b : byte) : string := format_d (octet b).

Definition hex_digit (n : Z) : ascii :=
  nth (Z.to_nat n)
    ["0"; "1"; "2"; "3"; "4"; "5"; "6"; "7";
     "8"; "9"; "a"; "b"; "c"; "d"; "e"; "f"]%char "0"%char.

(** ["%x"] of a 16-bit word: its hexadecimal digits in lower case, without
    leading zeros. *)
Definition format_x (w : Z) : string :=
  let d3 := hex_digit (Z.shiftr w 12 mod 16) in
  let d2 := hex_digit (Z.shiftr w 8 mod 16) in
  let d1 := hex_digit (Z.shiftr w 4 mod 16) in
  let d0 := hex_digit (w mod 16) in
  if 4096 <=? w then String d3 (String d2 (String d1 (String d0 "")))
  else if 256 <=? w then String d2 (String d1 (String d0 ""))
  else if 16 <=? w then String d1 (String d0 "")
  else String d0 "".

(** ["%u.%u.%u.%u"] *)
Definition inet_ntop4_text (src : list byte) : string :=
  String.concat "." (map (fun i => format_u (nth i src x00)) [0; 1; 2; 3]%nat).

(** [words[i / 2] = (src[i] << 8) | src[i + 1]] *)
Definition inet6_words (src : list byte) : list Z :=
  map (fun i => Z.lor (Z.shiftl (octet (nth (2 * i) src x00)) 8)
                      (octet (nth (2 * i + 1) src x00)))
      (seq 0 8).

(** A run of zero words: its base and its length. *)
Definition run : Type := option (nat * nat).

(** [if (best.base == -1 || cur.len > best.len) best = cur;] for a
    current run that is open. *)
Definition keep_best (best cur : run) : run :=
  match cur, best with
  | None, _ => best
  | Some _, None => cur
  | Some (_, cl), Some (_, bl) => if (bl <? cl)%nat then cur else best
  end.

Fixpoint scan_runs (words : list Z) (i : nat) (best cur : run) : run :=
  match words with
  | [] => keep_best best cur
  | w :: words =>
      if w =? 0
      then scan_runs words (S i) best
             (match cur with
              | None => Some (i, 1%nat)
              | Some (b, l) => Some (b, S l)
              end)
      else scan_runs words (S i) (keep_best best cur) None
  end.

(** The longest run of zero words, the first of them when several are as
    long, and none when it is shorter than two words. *)
Definition best_run (words : list Z) : run :=
  match scan_runs words 0 None None with
  | Some (b, l) => if (l <? 2)%nat then None else Some (b, l)
  | None => None
  end.

Definition in_run (best : run) (i : nat) : bool :=
  match best with
  | Some (b, l) => ((b <=? i)%nat && (i <? b + l)%nat)%bool
  | None => false
  end.

(** [i == 6 && best.base == 0 &&
     (best.len == 6 || (best.len == 5 && words[5] == 0xffff))] *)
Definition encapsulated_ipv4 (best : run) (i : nat) (all : list Z) : bool :=
  match best with
  | Some (O, l) =>
      ((i =? 6)%nat &&
       ((l =? 6)%nat || ((l =? 5)%nat && (nth 5 all 0 =? 65535))))%bool
  | _ => false
  end.

Fixpoint inet6_emit (src : list byte) (all : list Z) (best : run)
    (words : list Z) (i : nat) : string :=
  match words with
  | [] => ""
  | w :: words =>
      if in_run best i
      then String.append
             (if match best with Some (b, _) => (i =? b)%nat | None => false end
              then ":" else "")
             (inet6_emit src all best words (S i))
      else String.append (if (i =? 0)%nat then "" else ":")
             (if encapsulated_ipv4 best i all
              then inet_ntop4_text (skipn 12 src)
              else String.append (format_x w)
                     (inet6_emit src all best words (S i)))
  end.

Definition inet_ntop6_text (src : list byte) : string :=
  let words := inet6_words src in
  let best := best_run words in
  String.append (inet6_emit src words best words 0)
    (match best with
     | Some (b, l) => if (b + l =? 8)%nat then ":" else ""
     | None => ""
     end).

Definition inet_ntop (af : address_family) (src : list byte) (size : Z)
    : option string :=
  let text := match af with
              | AF_INET => inet_ntop4_text src
              | AF_INET6 => inet_ntop6_text src
              end in
  if Z.of_nat (String.length text) <? size then Some text else None.

End Libc.

(** ** Windows that hold complete elements *)

(** [Encoded width unpack v subtypes bytes items]: the octets [bytes] are
    the encodings of [length subtypes] elements one after the other, each a
    size field of [width] octets, read by [unpack], followed by as many
    octets as the field says; the k-th subtype decodes the k-th element at
    protocol version [v] to the k-th of [items]. *)
Inductive Encoded (width : Z) (unpack : list byte -> Z) (v : Z)
    : list Deserializer -> list byte -> list PyObject -> Prop :=
| Encoded_nil : Encoded width unpack v [] [] []
| Encoded_cons subtype subtypes sizeData itemData bytes des items :
    Z.of_nat (length sizeData) = width ->
    unpack sizeData = Z.of_nat (length itemData) ->
    fst (subtype (mkBuffer itemData) v) = inr des ->
    Encoded width unpack v subtypes bytes items ->
    Encoded width unpack v (subtype :: subtypes)
      (sizeData ++ itemData ++ bytes) (des :: items).

(** ** Sample descriptors *)

Definition py_Int32Type : PyCqlType := PyTypeObject "Int32Type" NoAttribute.
Definition py_TupleType (subtypes : list PyCqlType) : PyCqlType :=
  PyTypeObject "TupleType" (SubtypeTuple subtypes).
Definition py_ListType (subtypes : list PyCqlType) : PyCqlType :=
  PyTypeObject "ListType" (SubtypeList subtypes).
Definition py_CounterColumnType : PyCqlType :=
  PyTypeObject "CounterColumnType" NoAttribute.

(** ** Sample collaborators *)

(** Stand-ins for the Python runtime in the worked examples: float helpers
    and callables that give [None], and a codec that refuses its input. *)
Definition sample_float : list byte -> PyObject := fun _ => Py_None.
Definition sample_seconds : Z -> PyObject := fun _ => Py_None.
Definition sample_callable : list PyObject -> PyResult := fun _ => inr Py_None.
Definition sample_codec : string -> PyResult :=
  fun _ => inl (PyErr_SetString PyExc_ValueError "invalid start byte").

(** * Properties *)

(** ** Octets, integers and the buffer *)

Lemma octet_range (b : byte) : 0 <= octet b < 256.
Proof.
  unfold octet. pose proof (Byte.to_N_bounded b) as H. lia.
Qed.

Lemma UnpackUnsigned_snoc (data : list byte) (b : byte) :
  UnpackUnsigned (data ++ [b]) = UnpackUnsigned data * 256 + octet b.
Proof. unfold UnpackUnsigned. now rewrite fold_left_app. Qed.

Lemma UnpackUnsigned_range (data : list byte) :
  0 <= UnpackUnsigned data < 2 ^ (8 * Z.of_nat (length data)).
Proof.
  induction data as [|b data IH] using rev_ind.
  - cbn. lia.
  - rewrite UnpackUnsigned_snoc, length_app, Nat2Z.inj_add. cbn [length].
    replace (8 * (Z.of_nat (length data) + Z.of_nat 1))
      with (8 * Z.of_nat (length data) + 8) by lia.
    rewrite Z.pow_add_r by lia.
    pose proof (octet_range b). lia.
Qed.

Lemma UnpackUnsigned_firstn_range (n : nat) (data : list byte) :
  0 <= UnpackUnsigned (firstn n data) < 2 ^ (8 * Z.of_nat n).
Proof.
  pose proof (UnpackUnsigned_range (firstn n data)) as H.
  pose proof (length_take data n) as Hn.
  split; [lia|].
  eapply Z.lt_le_trans; [apply H|].
  apply Z.pow_le_mono_r; lia.
Qed.

Lemma as_signed_range (bits u : Z) :
  0 < bits -> 0 <= u < 2 ^ bits ->
  - 2 ^ (bits - 1) <= as_signed bits u < 2 ^ (bits - 1).
Proof.
  intros Hb Hu. unfold as_signed.
  assert (2 ^ bits = 2 * 2 ^ (bits - 1)) as E.
  { replace bits with (1 + (bits - 1)) at 1 by lia.
    rewrite Z.pow_add_r by lia. reflexivity. }
  destruct (Z.ltb_spec u (2 ^ (bits - 1))); lia.
Qed.

Lemma UnpackInt16_range (data : list byte) :
  - 2 ^ 15 <= UnpackInt16 data < 2 ^ 15.
Proof.
  unfold UnpackInt16.
  apply (as_signed_range 16); [lia|].
  apply (UnpackUnsigned_firstn_range 2).
Qed.

Lemma UnpackInt32_range (data : list byte) :
  - 2 ^ 31 <= UnpackInt32 data < 2 ^ 31.
Proof.
  unfold UnpackInt32.
  apply (as_signed_range 32); [lia|].
  apply (UnpackUnsigned_firstn_range 4).
Qed.

Lemma to_int32_id (z : Z) : - 2 ^ 31 <= z < 2 ^ 31 -> to_int32 z = z.
Proof.
  intros Hz. unfold to_int32, as_signed.
  change (2 ^ (32 - 1)) with 2147483648. change (2 ^ 32) with 4294967296.
  change (2 ^ 31) with 2147483648 in Hz.
  destruct (Z.ltb_spec (z mod 4294967296) 2147483648) as [H|H].
  - destruct (Z.neg_nonneg_cases z) as [Hn|Hp].
    + exfalso.
      replace z with (z + 4294967296 + (-1) * 4294967296) in H at 1 by lia.
      rewrite Z.mod_add, Z.mod_small in H; lia.
    + apply Z.mod_small. lia.
  - destruct (Z.neg_nonneg_cases z) as [Hn|Hp].
    + replace z with (z + 4294967296 + (-1) * 4294967296) at 1 by lia.
      rewrite Z.mod_add by lia. rewrite Z.mod_small; lia.
    + rewrite Z.mod_small in H; lia.
Qed.

Lemma to_size_t_id (z : Z) : 0 <= z < 2 ^ 64 -> to_size_t z = z.
Proof. intros Hz. unfold to_size_t. now apply Z.mod_small. Qed.

Lemma to_size_t_neg (z : Z) : - 2 ^ 64 <= z < 0 -> to_size_t z = 2 ^ 64 + z.
Proof.
  intros Hz. unfold to_size_t.
  replace z with (2 ^ 64 + z + (-1) * 2 ^ 64) at 1 by lia.
  rewrite Z.mod_add by lia. apply Z.mod_small. lia.
Qed.

Lemma Residual_mkBuffer (data : list byte) :
  Residual (mkBuffer data) = Z.of_nat (length data).
Proof. reflexivity. Qed.

Lemma Consume_app (size : Z) (data rest : list byte) :
  Z.of_nat (length data) = size ->
  Consume size (mkBuffer (data ++ rest)) = Some (data, mkBuffer rest).
Proof.
  intros <-. unfold Consume. rewrite Residual_mkBuffer, length_app. cbn [_data].
  destruct (Z.leb_spec (Z.of_nat (length data))
              (Z.of_nat (length data + length rest))); [|lia].
  rewrite Nat2Z.id, take_app_length, drop_app_length. reflexivity.
Qed.

Lemma Consume_all (data : list byte) :
  Consume (Z.of_nat (length data)) (mkBuffer data) = Some (data, mkBuffer []).
Proof.
  rewrite <- (app_nil_r data) at 2. now apply Consume_app.
Qed.

Lemma Consume_short (size : Z) (buffer : Buffer) :
  Residual buffer < size -> Consume size buffer = None.
Proof.
  intros H. unfold Consume. destruct (Z.leb_spec size (Residual buffer)); [lia|reflexivity].
Qed.

(** ** Complete elements and the loops *)

Lemma Encoded_length width unpack v subtypes bytes items :
  Encoded width unpack v subtypes bytes items ->
  length items = length subtypes.
Proof. induction 1; cbn; congruence. Qed.

(** Storing into the first NULL slot of a partly filled sequence. *)
Lemma set_first_null (done : list PyObject) (o : PyObject) (m : nat) :
  <[length done := Some o]> (map Some done ++ replicate (S m) None)
  = map Some (done ++ [o]) ++ replicate m None.
Proof.
  rewrite insert_app_r_alt by (rewrite length_map; lia).
  rewrite length_map, Nat.sub_diag, map_app, <- app_assoc. reflexivity.
Qed.

Lemma CqlTupleType_drain_complete v pre bytes items :
  Encoded 4 UnpackInt32 v pre bytes items ->
  forall post done m missing rest,
    CqlTupleType_drain (pre ++ post) (length done)
      (map Some done ++ replicate (length pre + m) None) missing
      (mkBuffer (bytes ++ rest)) v
    = CqlTupleType_drain post (length done + length pre)
        (map Some (done ++ items) ++ replicate m None)
        (missing - length pre) (mkBuffer rest) v.
Proof.
  induction 1 as [|subtype subtypes sizeData itemData bytes des items
                   Hw Hsize Hdes _ IH];
    intros post done m missing rest.
  - cbn [length app]. now rewrite Nat.add_0_r, Nat.sub_0_r, app_nil_r.
  - cbn [app CqlTupleType_drain].
    rewrite <- !app_assoc, (Consume_app 4) by exact Hw.
    rewrite Hsize.
    destruct (Z.ltb_spec (Z.of_nat (length itemData)) 0) as [Hneg|_]; [lia|].
    pose proof (UnpackInt32_range sizeData) as Hr.
    rewrite to_size_t_id by lia.
    rewrite Consume_app by reflexivity.
    destruct (subtype (mkBuffer itemData) v) as [r b']. cbn [fst] in Hdes |- *.
    subst r. unfold PyTuple_SetItem. cbn [length Nat.add].
    rewrite set_first_null.
    replace (S (length done)) with (length (done ++ [des]))
      by (rewrite length_app; cbn; lia).
    rewrite IH. rewrite <- app_assoc. cbn [app].
    rewrite length_app. cbn [length].
    f_equal; lia.
Qed.

Lemma CqlListType_drain_complete item v subtypes bytes items :
  Encoded (CqlListType_sizeSize v) (CqlListType_unpack v) v subtypes bytes items ->
  Forall (eq item) subtypes ->
  forall remaining done m rest,
    CqlListType_drain item (length subtypes + remaining) (length done)
      (map Some done ++ replicate (length subtypes + m) None)
      (mkBuffer (bytes ++ rest)) v
    = CqlListType_drain item remaining (length done + length subtypes)
        (map Some (done ++ items) ++ replicate m None) (mkBuffer rest) v.
Proof.
  induction 1 as [|subtype subtypes sizeData itemData bytes des items
                   Hw Hsize Hdes _ IH];
    intros Hitem remaining done m rest.
  - cbn [length app Nat.add]. now rewrite Nat.add_0_r, app_nil_r.
  - apply Forall_cons in Hitem as [<- Hitems].
    cbn [length Nat.add CqlListType_drain].
    rewrite <- !app_assoc, Consume_app by exact Hw.
    rewrite Hsize.
    assert (- 2 ^ 31 <= Z.of_nat (length itemData) < 2 ^ 31) as Hr.
    { rewrite <- Hsize. unfold CqlListType_unpack.
      pose proof (UnpackInt32_range sizeData).
      pose proof (UnpackInt16_range sizeData).
      destruct (3 <=? v); lia. }
    rewrite to_int32_id by exact Hr.
    destruct (Z.ltb_spec (Z.of_nat (length itemData)) 0) as [Hneg|_]; [lia|].
    rewrite to_size_t_id by lia.
    rewrite Consume_app by reflexivity.
    destruct (item (mkBuffer itemData) v) as [r b']. cbn [fst] in Hdes |- *.
    subst r. unfold PyList_SetItem.
    rewrite set_first_null.
    replace (S (length done)) with (length (done ++ [des]))
      by (rewrite length_app; cbn; lia).
    rewrite (IH Hitems). rewrite <- app_assoc. cbn [app].
    rewrite length_app. cbn [length].
    f_equal; lia.
Qed.

Lemma to_ssize_t_id (z : Z) : 0 <= z < 2 ^ 63 -> to_ssize_t z = z.
Proof.
  intros Hz. unfold to_ssize_t, as_signed.
  rewrite Z.mod_small by lia.
  destruct (Z.ltb_spec z (2 ^ (64 - 1))); [reflexivity|].
  change (2 ^ (64 - 1)) with (2 ^ 63) in *. lia.
Qed.

Lemma to_ssize_t_high (z : Z) :
  2 ^ 63 <= z < 2 ^ 64 -> to_ssize_t z = z - 2 ^ 64.
Proof.
  intros Hz. unfold to_ssize_t, as_signed.
  rewrite Z.mod_small by lia.
  destruct (Z.ltb_spec z (2 ^ (64 - 1))); [|reflexivity].
  change (2 ^ (64 - 1)) with (2 ^ 63) in *. lia.
Qed.

Lemma forced_version (v : Z) : (if v <? 3 then 3 else v) = Z.max 3 v.
Proof. destruct (Z.ltb_spec v 3); lia. Qed.

Lemma CqlListType_unpack_range (v : Z) (data : list byte) :
  - 2 ^ 31 <= CqlListType_unpack v data < 2 ^ 31.
Proof.
  unfold CqlListType_unpack.
  pose proof (UnpackInt32_range data). pose proof (UnpackInt16_range data).
  destruct (3 <=? v); lia.
Qed.

(** A tuple window that starts with complete elements: the call comes to
    the loop at the first subtype that is left, with the decoded items in
    their slots. *)
Lemma CqlTupleType_Deserialize_prefix v pre post bytes items rest :
  Encoded 4 UnpackInt32 (Z.max 3 v) pre bytes items ->
  CqlTupleType_Deserialize (pre ++ post) (mkBuffer (bytes ++ rest)) v
  = match CqlTupleType_drain post (length pre)
            (map Some items ++ replicate (length post) None) (length post)
            (mkBuffer rest) (Z.max 3 v) with
    | (inl e, buffer) => (inl e, buffer)
    | (inr (tuple, missing), buffer) =>
        (inr (PyTuple (CqlTupleType_backfill missing tuple)), buffer)
    end.
Proof.
  intros Henc. unfold CqlTupleType_Deserialize, PyTuple_New.
  destruct (Z.ltb_spec (Z.of_nat (length (pre ++ post))) 0) as [Hneg|_]; [lia|].
  rewrite forced_version, Nat2Z.id, length_app.
  pose proof (CqlTupleType_drain_complete _ _ _ _ Henc post [] (length post)
                (length pre + length post)%nat rest) as E.
  cbn [map app length Nat.add] in E. rewrite E.
  replace (length pre + length post - length pre)%nat with (length post) by lia.
  reflexivity.
Qed.

(** A list window that starts with its count and complete elements: the
    call comes to the loop at the first element that is left. *)
Lemma CqlListType_Deserialize_prefix item v countData bytes items m rest :
  Z.of_nat (length countData) = CqlListType_sizeSize v ->
  CqlListType_unpack v countData = Z.of_nat (length items + m) ->
  Encoded (CqlListType_sizeSize v) (CqlListType_unpack v) v
    (replicate (length items) item) bytes items ->
  CqlListType_Deserialize item (mkBuffer (countData ++ bytes ++ rest)) v
  = CqlListType_drain item m (length items)
      (map Some items ++ replicate m None) (mkBuffer rest) v.
Proof.
  intros Hw Hcount Henc. unfold CqlListType_Deserialize.
  rewrite Consume_app by exact Hw.
  unfold CqlListType_items, CqlListType_itemCount, PyList_New.
  pose proof (CqlListType_unpack_range v countData) as Hr.
  rewrite Hcount in *.
  rewrite to_size_t_id by lia. rewrite to_ssize_t_id by lia.
  destruct (Z.ltb_spec (Z.of_nat (length items + m)) 0) as [Hneg|_]; [lia|].
  rewrite Nat2Z.id.
  pose proof (CqlListType_drain_complete item v _ _ _ Henc) as E.
  rewrite length_replicate in E.
  specialize (E (Forall_replicate_eq _ _) m [] m rest).
  cbn [map app length Nat.add] in E. exact E.
Qed.

Lemma Encoded_ext width unpack unpack' v subtypes bytes items :
  (forall data, unpack data = unpack' data) ->
  Encoded width unpack v subtypes bytes items ->
  Encoded width unpack' v subtypes bytes items.
Proof.
  intros Hext. induction 1; constructor; try assumption.
  now rewrite <- Hext.
Qed.

Lemma CqlListType_sizeSize_v3 (v : Z) : 3 <= v -> CqlListType_sizeSize v = 4.
Proof. intros H. unfold CqlListType_sizeSize. destruct (Z.leb_spec 3 v); lia. Qed.

Lemma CqlListType_sizeSize_v2 (v : Z) : v < 3 -> CqlListType_sizeSize v = 2.
Proof. intros H. unfold CqlListType_sizeSize. destruct (Z.leb_spec 3 v); lia. Qed.

Lemma CqlListType_unpack_v3 (v : Z) (data : list byte) :
  3 <= v -> CqlListType_unpack v data = UnpackInt32 data.
Proof. intros H. unfold CqlListType_unpack. destruct (Z.leb_spec 3 v); [reflexivity|lia]. Qed.

Lemma CqlListType_unpack_v2 (v : Z) (data : list byte) :
  v < 3 -> CqlListType_unpack v data = UnpackInt16 data.
Proof. intros H. unfold CqlListType_unpack. destruct (Z.leb_spec 3 v); [lia|reflexivity]. Qed.

(** The loops consult the subtypes only at the version they are run at. *)
Lemma CqlTupleType_drain_ext v subtypes subtypes' :
  Forall2 (fun s s' : Deserializer => forall b, s b v = s' b v) subtypes subtypes' ->
  forall i tuple missing buffer,
    CqlTupleType_drain subtypes i tuple missing buffer v
    = CqlTupleType_drain subtypes' i tuple missing buffer v.
Proof.
  induction 1 as [|s s' subtypes subtypes' Hs _ IH]; intros i tuple missing buffer.
  - reflexivity.
  - cbn [CqlTupleType_drain].
    destruct (Consume 4 buffer) as [[sizeData buffer1]|]; [|reflexivity].
    destruct (UnpackInt32 sizeData <? 0); [reflexivity|].
    destruct (Consume _ buffer1) as [[itemData buffer2]|]; [|reflexivity].
    rewrite Hs. destruct (fst _); [reflexivity|]. apply IH.
Qed.

Lemma CqlListType_drain_ext v (item item' : Deserializer) :
  (forall b, item b v = item' b v) ->
  forall remaining i lst buffer,
    CqlListType_drain item remaining i lst buffer v
    = CqlListType_drain item' remaining i lst buffer v.
Proof.
  intros Hs. induction remaining as [|remaining IH]; intros i lst buffer.
  - reflexivity.
  - cbn [CqlListType_drain].
    destruct (Consume _ buffer) as [[sizeData buffer1]|]; [|reflexivity].
    destruct (to_int32 _ <? 0); [reflexivity|].
    destruct (Consume _ buffer1) as [[itemData buffer2]|]; [|reflexivity].
    rewrite Hs. destruct (fst _); [reflexivity|]. apply IH.
Qed.

(** What the backfill loop leaves in each slot: it visits the indices
    below [missing], the others keep what they hold. *)
Lemma CqlTupleType_backfill_lookup (missing : nat)
    (tuple : list (option PyObject)) (j : nat) :
  CqlTupleType_backfill missing tuple !! j
  = if decide (j < missing /\ j < length tuple)%nat
    then Some (Some Py_None) else tuple !! j.
Proof.
  revert tuple. induction missing as [|missing IH]; intros tuple.
  - cbn. case_decide; [lia|reflexivity].
  - cbn [CqlTupleType_backfill]. rewrite IH. unfold PyTuple_SetItem.
    rewrite length_insert.
    destruct (decide (j = missing)) as [->|Hne].
    + repeat case_decide; try lia.
      * now rewrite list_lookup_insert_eq by lia.
      * rewrite list_insert_ge by lia. reflexivity.
    + rewrite list_lookup_insert_ne by congruence.
      repeat case_decide; try lia; reflexivity.
Qed.

Lemma CqlTupleType_backfill_length (missing : nat) (tuple : list (option PyObject)) :
  length (CqlTupleType_backfill missing tuple) = length tuple.
Proof.
  revert tuple. induction missing as [|missing IH]; intros tuple; [reflexivity|].
  cbn [CqlTupleType_backfill]. rewrite IH. apply length_insert.
Qed.

(** The call on a window that runs out after complete elements, for any
    number of subtypes: the loop stops and the backfill runs over the
    lowest indices. *)
Lemma CqlTupleType_Deserialize_exhausted v pre post bytes items rest :
  Encoded 4 UnpackInt32 (Z.max 3 v) pre bytes items ->
  Z.of_nat (length rest) < 4 ->
  CqlTupleType_Deserialize (pre ++ post) (mkBuffer (bytes ++ rest)) v
  = (inr (PyTuple (CqlTupleType_backfill (length post)
                     (map Some items ++ replicate (length post) None))),
     mkBuffer rest).
Proof.
  intros Henc Hrest.
  rewrite (CqlTupleType_Deserialize_prefix _ _ _ _ _ _ Henc).
  destruct post as [|subtype post]; [reflexivity|].
  cbn [CqlTupleType_drain]. now rewrite Consume_short.
Qed.

(** With at least one element decoded and at least one missing, the first
    slot is overwritten with [Py_None] and the last slot stays NULL. *)
Lemma CqlTupleType_Deserialize_exhausted_slots v pre post bytes items rest :
  Encoded 4 UnpackInt32 (Z.max 3 v) pre bytes items ->
  Z.of_nat (length rest) < 4 ->
  pre <> [] -> post <> [] ->
  exists tuple,
    CqlTupleType_Deserialize (pre ++ post) (mkBuffer (bytes ++ rest)) v
    = (inr (PyTuple tuple), mkBuffer rest) /\
    length tuple = length (pre ++ post) /\
    tuple !! 0%nat = Some (Some Py_None) /\
    tuple !! (length (pre ++ post) - 1)%nat = Some None.
Proof.
  intros Henc Hrest Hpre Hpost.
  pose proof (Encoded_length _ _ _ _ _ _ Henc) as Hlen.
  assert (0 < length pre)%nat by (destruct pre; cbn; [congruence|lia]).
  assert (0 < length post)%nat by (destruct post; cbn; [congruence|lia]).
  eexists. split; [exact (CqlTupleType_Deserialize_exhausted _ _ _ _ _ _ Henc Hrest)|].
  rewrite CqlTupleType_backfill_length, !CqlTupleType_backfill_lookup.
  rewrite !length_app, length_map, length_replicate, Hlen.
  split; [reflexivity|]. split.
  - case_decide; [reflexivity|lia].
  - case_decide; [lia|].
    rewrite lookup_app_r by (rewrite length_map; lia).
    rewrite length_map, Hlen. apply lookup_replicate_2. lia.
Qed.

(** ** TupleType and ListType: exhausted windows, negative sizes, framing *)

(** C1.  A tuple of three [int32] subtypes on a window that holds two
    complete elements, 1 and 2.  The expected result is the three-element
    tuple [(1, 2, None)].  The call does stop reading and does return a
    three-element tuple, but the backfill loop counts [missing] down from 1
    and so writes [Py_None] to slot 0, over the first decoded item, and
    never reaches slot 2, which keeps the NULL it was allocated with. *)
Theorem CqlTupleType_Deserialize_backfill_misplaced :
  CqlTupleType_Deserialize
    [CqlInt32Type_Deserialize; CqlInt32Type_Deserialize; CqlInt32Type_Deserialize]
    (mkBuffer [x00; x00; x00; x04; x00; x00; x00; x01;
               x00; x00; x00; x04; x00; x00; x00; x02]) 3
  = (inr (PyTuple [Some Py_None; Some (PyInt 2); None]), mkBuffer []) /\
  CqlTupleType_Deserialize
    [CqlInt32Type_Deserialize; CqlInt32Type_Deserialize; CqlInt32Type_Deserialize]
    (mkBuffer [x00; x00; x00; x04; x00; x00; x00; x01;
               x00; x00; x00; x04; x00; x00; x00; x02]) 3
  <> (inr (PyTuple [Some (PyInt 1); Some (PyInt 2); Some Py_None]), mkBuffer []).
Proof.
  split; [reflexivity|].
  intros H. vm_compute in H. discriminate H.
Qed.

(** C2.  A list window whose count prefix declares [length items + m]
    elements and which holds [length items] complete elements followed by
    fewer octets than a size field: the call stops there and returns a list
    of the declared length, the decoded items first and the [m] slots after
    them still NULL, not [Py_None]. *)
Theorem CqlListType_Deserialize_exhausted
    (item : Deserializer) (v : Z) (countData bytes : list byte)
    (items : list PyObject) (m : nat) (tail : list byte) :
  Z.of_nat (length countData) = CqlListType_sizeSize v ->
  CqlListType_unpack v countData = Z.of_nat (length items + m) ->
  Encoded (CqlListType_sizeSize v) (CqlListType_unpack v) v
    (replicate (length items) item) bytes items ->
  Z.of_nat (length tail) < CqlListType_sizeSize v ->
  CqlListType_Deserialize item (mkBuffer (countData ++ bytes ++ tail)) v
  = (inr (PyList (map Some items ++ replicate m None)), mkBuffer tail)
  /\ length (map Some items ++ replicate m (@None PyObject))
     = (length items + m)%nat.
Proof.
  intros Hw Hcount Henc Htail. split.
  - rewrite (CqlListType_Deserialize_prefix _ _ _ _ _ _ _ Hw Hcount Henc).
    destruct m as [|m]; [reflexivity|].
    cbn [CqlListType_drain]. now rewrite Consume_short.
  - now rewrite length_app, length_map, length_replicate.
Qed.

Lemma CqlListType_Deserialize_exhausted_witness :
  CqlListType_Deserialize CqlInt32Type_Deserialize
    (mkBuffer ([x00; x03]
               ++ ([x00; x04] ++ [x00; x00; x00; x01]
                   ++ [x00; x04] ++ [x00; x00; x00; x02] ++ [])
               ++ [x00])) 2
  = (inr (PyList (map Some [PyInt 1; PyInt 2] ++ replicate 1 None)),
     mkBuffer [x00])
  /\ length (map Some [PyInt 1; PyInt 2] ++ replicate 1 (@None PyObject)) = 3%nat.
Proof.
  apply (CqlListType_Deserialize_exhausted CqlInt32Type_Deserialize 2
           [x00; x03] _ [PyInt 1; PyInt 2] 1 [x00]).
  - reflexivity.
  - reflexivity.
  - repeat (apply Encoded_cons || apply Encoded_nil); reflexivity.
  - reflexivity.
Defined.

(** C3.  In a tuple and in a list, at every protocol version: when the
    elements before it are complete and decode, and one more element is
    expected, a size field that reads negative makes the call fail with
    [ValueError], a Malformed failure; no value is returned. *)
Theorem negative_item_size_Malformed :
  (forall v pre subtype post bytes items sizeData rest,
      Encoded 4 UnpackInt32 (Z.max 3 v) pre bytes items ->
      Z.of_nat (length sizeData) = 4 ->
      UnpackInt32 sizeData < 0 ->
      exists e,
        CqlTupleType_Deserialize (pre ++ subtype :: post)
          (mkBuffer (bytes ++ sizeData ++ rest)) v = (inl e, mkBuffer rest)
        /\ e = PyErr_SetString PyExc_ValueError "negative item size in tuple"
        /\ Malformed e)
  /\
  (forall item v countData bytes items m sizeData rest,
      Z.of_nat (length countData) = CqlListType_sizeSize v ->
      CqlListType_unpack v countData = Z.of_nat (length items + S m) ->
      Encoded (CqlListType_sizeSize v) (CqlListType_unpack v) v
        (replicate (length items) item) bytes items ->
      Z.of_nat (length sizeData) = CqlListType_sizeSize v ->
      CqlListType_unpack v sizeData < 0 ->
      exists e,
        CqlListType_Deserialize item
          (mkBuffer (countData ++ bytes ++ sizeData ++ rest)) v
        = (inl e, mkBuffer rest)
        /\ e = PyErr_SetString PyExc_ValueError "negative item size in list"
        /\ Malformed e).
Proof.
  split.
  - intros v pre subtype post bytes items sizeData rest Henc Hw Hneg.
    eexists. split; [|split; [reflexivity|now left]].
    rewrite (CqlTupleType_Deserialize_prefix _ _ _ _ _ _ Henc).
    cbn [CqlTupleType_drain]. rewrite (Consume_app 4) by exact Hw.
    destruct (Z.ltb_spec (UnpackInt32 sizeData) 0); [reflexivity|lia].
  - intros item v countData bytes items m sizeData rest Hw Hcount Henc Hws Hneg.
    eexists. split; [|split; [reflexivity|now left]].
    rewrite (CqlListType_Deserialize_prefix _ _ _ _ _ _ _ Hw Hcount Henc).
    cbn [CqlListType_drain]. rewrite Consume_app by exact Hws.
    rewrite to_int32_id by apply CqlListType_unpack_range.
    destruct (Z.ltb_spec (CqlListType_unpack v sizeData) 0); [reflexivity|lia].
Qed.

Lemma negative_item_size_Malformed_witness :
  (exists e,
      CqlTupleType_Deserialize
        ([CqlInt32Type_Deserialize] ++ CqlInt32Type_Deserialize :: [])
        (mkBuffer (([x00; x00; x00; x04] ++ [x00; x00; x00; x01] ++ [])
                   ++ [xff; xff; xff; xff] ++ [x07])) 1
      = (inl e, mkBuffer [x07])
      /\ e = PyErr_SetString PyExc_ValueError "negative item size in tuple"
      /\ Malformed e)
  /\
  (exists e,
      CqlListType_Deserialize CqlInt32Type_Deserialize
        (mkBuffer ([x00; x02]
                   ++ ([x00; x04] ++ [x00; x00; x00; x01] ++ [])
                   ++ [x80; x00] ++ [x07])) 2
      = (inl e, mkBuffer [x07])
      /\ e = PyErr_SetString PyExc_ValueError "negative item size in list"
      /\ Malformed e).
Proof.
  split.
  - apply (proj1 negative_item_size_Malformed 1 [CqlInt32Type_Deserialize]
             CqlInt32Type_Deserialize [] _ [PyInt 1] [xff; xff; xff; xff] [x07]).
    + repeat (apply Encoded_cons || apply Encoded_nil); reflexivity.
    + reflexivity.
    + reflexivity.
  - apply (proj2 negative_item_size_Malformed CqlInt32Type_Deserialize 2
             [x00; x02] _ [PyInt 1] 0%nat [x80; x00] [x07]).
    + reflexivity.
    + reflexivity.
    + repeat (apply Encoded_cons || apply Encoded_nil); reflexivity.
    + reflexivity.
    + reflexivity.
Defined.

(** C4.  The framing of a list follows the protocol version.  From version
    3 on, a window made of a 4-octet count and, for every element, a
    4-octet size and the element's octets decodes to the list of the items,
    each decoded by the item type at the version of the call; below version
    3 the same holds with 2-octet fields.  Fewer octets than the width of
    the count is a truncated window.  The item type is consulted at the
    version of the call only. *)
Theorem CqlListType_Deserialize_framing :
  (forall item v countData bytes items rest,
      3 <= v ->
      Z.of_nat (length countData) = 4 ->
      UnpackInt32 countData = Z.of_nat (length items) ->
      Encoded 4 UnpackInt32 v (replicate (length items) item) bytes items ->
      CqlListType_Deserialize item (mkBuffer (countData ++ bytes ++ rest)) v
      = (inr (PyList (map Some items)), mkBuffer rest))
  /\
  (forall item v countData bytes items rest,
      v < 3 ->
      Z.of_nat (length countData) = 2 ->
      UnpackInt16 countData = Z.of_nat (length items) ->
      Encoded 2 UnpackInt16 v (replicate (length items) item) bytes items ->
      CqlListType_Deserialize item (mkBuffer (countData ++ bytes ++ rest)) v
      = (inr (PyList (map Some items)), mkBuffer rest))
  /\
  (forall item v buffer,
      Residual buffer < (if 3 <=? v then 4 else 2) ->
      exists e, CqlListType_Deserialize item buffer v = (inl e, buffer)
                /\ Truncated e)
  /\
  (forall (item item' : Deserializer) v buffer,
      (forall b, item b v = item' b v) ->
      CqlListType_Deserialize item buffer v
      = CqlListType_Deserialize item' buffer v).
Proof.
  assert (forall item v countData bytes items rest,
             Z.of_nat (length countData) = CqlListType_sizeSize v ->
             CqlListType_unpack v countData = Z.of_nat (length items) ->
             Encoded (CqlListType_sizeSize v) (CqlListType_unpack v) v
               (replicate (length items) item) bytes items ->
             CqlListType_Deserialize item (mkBuffer (countData ++ bytes ++ rest)) v
             = (inr (PyList (map Some items)), mkBuffer rest)) as Hfull.
  { intros item v countData bytes items rest Hw Hcount Henc.
    rewrite <- (Nat.add_0_r (length items)) in Hcount.
    rewrite (CqlListType_Deserialize_prefix _ _ _ _ _ _ _ Hw Hcount Henc).
    cbn [CqlListType_drain replicate]. now rewrite app_nil_r. }
  repeat split.
  - intros item v countData bytes items rest Hv Hw Hcount Henc.
    apply Hfull.
    + now rewrite CqlListType_sizeSize_v3.
    + now rewrite CqlListType_unpack_v3.
    + rewrite CqlListType_sizeSize_v3 by exact Hv.
      apply (Encoded_ext _ UnpackInt32); [|exact Henc].
      intros data. now rewrite CqlListType_unpack_v3.
  - intros item v countData bytes items rest Hv Hw Hcount Henc.
    apply Hfull.
    + now rewrite CqlListType_sizeSize_v2.
    + now rewrite CqlListType_unpack_v2.
    + rewrite CqlListType_sizeSize_v2 by exact Hv.
      apply (Encoded_ext _ UnpackInt16); [|exact Henc].
      intros data. now rewrite CqlListType_unpack_v2.
  - intros item v buffer Hshort. eexists.
    unfold CqlListType_Deserialize. rewrite Consume_short by exact Hshort.
    split; reflexivity.
  - intros item item' v buffer Hext. unfold CqlListType_Deserialize.
    destruct (Consume _ buffer) as [[itemCountData buffer1]|]; [|reflexivity].
    unfold CqlListType_items.
    destruct (PyList_New _); [reflexivity|].
    now apply CqlListType_drain_ext.
Qed.

Lemma CqlListType_Deserialize_framing_witness :
  CqlListType_Deserialize CqlInt32Type_Deserialize
    (mkBuffer ([x00; x00; x00; x02]
               ++ ([x00; x00; x00; x04] ++ [x00; x00; x00; x01]
                   ++ [x00; x00; x00; x04] ++ [x00; x00; x00; x02] ++ [])
               ++ [x07])) 3
  = (inr (PyList (map Some [PyInt 1; PyInt 2])), mkBuffer [x07])
  /\
  CqlListType_Deserialize CqlInt32Type_Deserialize
    (mkBuffer ([x00; x02]
               ++ ([x00; x04] ++ [x00; x00; x00; x01]
                   ++ [x00; x04] ++ [x00; x00; x00; x02] ++ [])
               ++ [x07])) 2
  = (inr (PyList (map Some [PyInt 1; PyInt 2])), mkBuffer [x07])
  /\
  (exists e, CqlListType_Deserialize CqlInt32Type_Deserialize
               (mkBuffer [x00; x00; x00]) 3 = (inl e, mkBuffer [x00; x00; x00])
             /\ Truncated e).
Proof.
  split; [|split].
  - apply (proj1 CqlListType_Deserialize_framing CqlInt32Type_Deserialize 3
             [x00; x00; x00; x02] _ [PyInt 1; PyInt 2] [x07]).
    + lia.
    + reflexivity.
    + reflexivity.
    + repeat (apply Encoded_cons || apply Encoded_nil); reflexivity.
  - apply (proj1 (proj2 CqlListType_Deserialize_framing) CqlInt32Type_Deserialize 2
             [x00; x02] _ [PyInt 1; PyInt 2] [x07]).
    + lia.
    + reflexivity.
    + reflexivity.
    + repeat (apply Encoded_cons || apply Encoded_nil); reflexivity.
  - apply (proj1 (proj2 (proj2 CqlListType_Deserialize_framing))
             CqlInt32Type_Deserialize 3 (mkBuffer [x00; x00; x00])).
    reflexivity.
Defined.

(** C5.  A tuple is decoded at protocol version 3 at least, whatever the
    version negotiated.  The call at a version below 3 is the call at
    version 3; the subtypes are consulted at versions from 3 on only; and
    at every version, 1 and 2 included, a window made, for every subtype,
    of a 4-octet size and the element's octets decodes to the tuple of the
    items, each decoded by its subtype at the forced version. *)
Theorem CqlTupleType_Deserialize_forced_version :
  (forall _subtypes buffer v,
      v < 3 ->
      CqlTupleType_Deserialize _subtypes buffer v
      = CqlTupleType_Deserialize _subtypes buffer 3)
  /\
  (forall (_subtypes _subtypes' : list Deserializer) buffer v,
      Forall2 (fun s s' : Deserializer => forall b u, 3 <= u -> s b u = s' b u)
        _subtypes _subtypes' ->
      CqlTupleType_Deserialize _subtypes buffer v
      = CqlTupleType_Deserialize _subtypes' buffer v)
  /\
  (forall _subtypes v bytes items rest,
      Encoded 4 UnpackInt32 (Z.max 3 v) _subtypes bytes items ->
      CqlTupleType_Deserialize _subtypes (mkBuffer (bytes ++ rest)) v
      = (inr (PyTuple (map Some items)), mkBuffer rest)).
Proof.
  repeat split.
  - intros _subtypes buffer v Hv. unfold CqlTupleType_Deserialize.
    destruct (Z.ltb_spec v 3); [reflexivity|lia].
  - intros _subtypes _subtypes' buffer v Hext. unfold CqlTupleType_Deserialize.
    rewrite <- (Forall2_length _ _ _ Hext).
    destruct (PyTuple_New _); [reflexivity|].
    rewrite forced_version.
    rewrite (CqlTupleType_drain_ext (Z.max 3 v) _subtypes _subtypes');
      [reflexivity|].
    eapply Forall2_impl; [exact Hext|].
    cbn beta. intros s s' Hs b. apply Hs. lia.
  - intros _subtypes v bytes items rest Henc.
    pose proof (CqlTupleType_Deserialize_prefix v _subtypes [] bytes items rest Henc)
      as E.
    rewrite app_nil_r in E. rewrite E.
    cbn [CqlTupleType_drain length replicate CqlTupleType_backfill].
    now rewrite app_nil_r.
Qed.

Lemma CqlTupleType_Deserialize_forced_version_witness :
  CqlTupleType_Deserialize [CqlInt32Type_Deserialize; CqlBytesType_Deserialize]
    (mkBuffer [x00; x00; x00; x04; x00; x00; x00; x01]) 1
  = CqlTupleType_Deserialize [CqlInt32Type_Deserialize; CqlBytesType_Deserialize]
      (mkBuffer [x00; x00; x00; x04; x00; x00; x00; x01]) 3
  /\
  CqlTupleType_Deserialize [CqlInt32Type_Deserialize; CqlBytesType_Deserialize]
    (mkBuffer (([x00; x00; x00; x04] ++ [x00; x00; x00; x01]
                ++ [x00; x00; x00; x02] ++ [x68; x69] ++ [])
               ++ [x07])) 2
  = (inr (PyTuple (map Some [PyInt 1; PyString "hi"])), mkBuffer [x07]).
Proof.
  split.
  - apply (proj1 CqlTupleType_Deserialize_forced_version). lia.
  - apply (proj2 (proj2 CqlTupleType_Deserialize_forced_version)
             [CqlInt32Type_Deserialize; CqlBytesType_Deserialize] 2 _
             [PyInt 1; PyString "hi"] [x07]).
    repeat (apply Encoded_cons || apply Encoded_nil); reflexivity.
Defined.

(** ** DecimalType: formatting and parsing *)

Lemma to_int_parse (z : Z) :
  exists d, NilZero.int_of_string (format_d z) = Some d /\ Z.of_int d = z.
Proof.
  unfold format_d. destruct z as [|p|p].
  - exists (Decimal.Pos Decimal.zero). split; reflexivity.
  - exists (Z.to_int (Z.pos p)). split; [|apply DecimalZ.of_to].
    apply NilZero.isi; cbn; intros [= H]; now apply (DecimalPos.Unsigned.to_uint_nonnil p).
  - exists (Z.to_int (Z.neg p)). split; [|apply DecimalZ.of_to].
    apply NilZero.isi; cbn; intros [= H]; now apply (DecimalPos.Unsigned.to_uint_nonnil p).
Qed.

(** The digits and the sign hold no exponent marker. *)
Lemma split_exponent_uint (d : Decimal.uint) :
  split_exponent (NilEmpty.string_of_uint d) = (NilEmpty.string_of_uint d, None).
Proof.
  induction d as [|d IH|d IH|d IH|d IH|d IH|d IH|d IH|d IH|d IH|d IH];
    cbn; [reflexivity|..]; cbn in IH; now rewrite IH.
Qed.

Lemma split_exponent_format_d (z : Z) :
  split_exponent (format_d z) = (format_d z, None).
Proof.
  unfold format_d.
  assert (forall d, split_exponent (NilZero.string_of_uint d)
                    = (NilZero.string_of_uint d, None)) as Hu.
  { intros d. destruct d; try apply split_exponent_uint. reflexivity. }
  destruct (Z.to_int z) as [d|d]; unfold NilZero.string_of_int.
  - apply Hu.
  - change (split_exponent (String "-" (NilZero.string_of_uint d)))
      with (let (m, x) := split_exponent (NilZero.string_of_uint d) in
            (String "-" m, x)).
    now rewrite Hu.
Qed.

Lemma split_exponent_app (s t : string) :
  split_exponent s = (s, None) ->
  split_exponent (String.append s (String "e" t)) = (s, Some t).
Proof.
  induction s as [|c s IH]; intros H.
  - reflexivity.
  - change (String.append (String c s) (String "e" t))
      with (String c (String.append s (String "e" t))).
    cbn [split_exponent] in H |- *.
    destruct (Ascii.eqb c "e" || Ascii.eqb c "E")%bool; [discriminate|].
    destruct (split_exponent s) as [m x] eqn:E.
    injection H as Hm Hx. subst m x. now rewrite IH.
Qed.

(** The decimal constructor reads back the two integers of ["%de%d"]. *)
Lemma decimal_Decimal_format (unscaled scale : PyObject) (u s : Z) :
  PyNumber_value unscaled = Some u ->
  PyNumber_value scale = Some s ->
  exists stringRepr,
    PyString_Format_de [unscaled; scale] = inr (PyString stringRepr) /\
    stringRepr = String.append (format_d u) (String "e" (format_d s)) /\
    decimal_Decimal [PyString stringRepr] = inr (PyDecimal u s).
Proof.
  intros Hu Hs. eexists. split; [|split; [reflexivity|]].
  - unfold PyString_Format_de. cbn [map]. now rewrite Hu, Hs.
  - unfold decimal_Decimal.
    rewrite split_exponent_app by apply split_exponent_format_d.
    destruct (to_int_parse u) as (du & -> & <-).
    destruct (to_int_parse s) as (ds & -> & <-).
    reflexivity.
Qed.

(** The call on a window with a scale field: away from the least 32-bit
    scale the result is the decimal object of coefficient [U] and exponent
    [- S], which stands for [U × 10^(-S)]. *)
Lemma CqlDecimalType_Deserialize_value (scaleData data : list byte) (v : Z) :
  Z.of_nat (length scaleData) = 4 ->
  UnpackInt32 scaleData <> - 2 ^ 31 ->
  let S := UnpackInt32 scaleData in
  let U := UnpackVarint data (Z.of_nat (length data)) in
  CqlDecimalType_Deserialize decimal_Decimal (mkBuffer (scaleData ++ data)) v
  = (inr (PyDecimal U (- S)), mkBuffer []) /\
  decimal_value (PyDecimal U (- S)) = Some (inject_Z U * Qpower (10 # 1) (- S))%Q.
Proof.
  intros Hw Hmin S U. split; [|reflexivity].
  unfold CqlDecimalType_Deserialize.
  rewrite (Consume_app 4) by exact Hw.
  rewrite Residual_mkBuffer, Consume_all.
  pose proof (UnpackInt32_range scaleData) as Hr.
  rewrite to_int32_id by lia.
  unfold UnmarshalVarint, PyInt_FromLong, octets. cbv beta iota zeta. fold S U.
  destruct (decimal_Decimal_format (PyLong U) (PyInt (- S)) U (- S) eq_refl eq_refl)
    as (stringRepr & -> & _ & ->).
  reflexivity.
Qed.

Lemma CqlDecimalType_Deserialize_truncated
    (ctor : list PyObject -> PyResult) (buffer : Buffer) (v : Z) :
  Residual buffer < 4 ->
  CqlDecimalType_Deserialize ctor buffer v
  = (inl (PyErr_SetString PyExc_EOFError
            "unexpected end of buffer deserializing decimal number"), buffer).
Proof.
  intros H. unfold CqlDecimalType_Deserialize. now rewrite Consume_short.
Qed.

(** Scale 2 and unscaled value 12345: the text is ["12345e-2"] and the
    value 123.45. *)
Example CqlDecimalType_Deserialize_123_45 :
  PyString_Format_de [PyLong 12345; PyInt (-2)] = inr (PyString "12345e-2") /\
  CqlDecimalType_Deserialize decimal_Decimal
    (mkBuffer [x00; x00; x00; x02; x30; x39]) 3
  = (inr (PyDecimal 12345 (-2)), mkBuffer []) /\
  (inject_Z 12345 * Qpower (10 # 1) (-2) == 12345 # 100)%Q.
Proof. repeat split. Qed.

(** C6.  A decimal window whose scale field is the least 32-bit integer,
    S = -2^31, with unscaled value 12345.  The expected value is
    [12345 × 10^(-S)], of exponent 2^31; the negation of S is taken in 32
    bits, where it gives S again, so the text formatted is
    ["12345e-2147483648"] and the decimal built has exponent -2^31. *)
Theorem CqlDecimalType_Deserialize_least_scale :
  UnpackInt32 [x80; x00; x00; x00] = - 2 ^ 31 /\
  UnpackVarint [x30; x39] 2 = 12345 /\
  to_int32 (- UnpackInt32 [x80; x00; x00; x00]) = - 2 ^ 31 /\
  CqlDecimalType_Deserialize decimal_Decimal
    (mkBuffer [x80; x00; x00; x00; x30; x39]) 3
  = (inr (PyDecimal 12345 (- 2 ^ 31)), mkBuffer []) /\
  CqlDecimalType_Deserialize decimal_Decimal
    (mkBuffer [x80; x00; x00; x00; x30; x39]) 3
  <> (inr (PyDecimal 12345 (- UnpackInt32 [x80; x00; x00; x00])), mkBuffer []).
Proof.
  repeat split.
  intros H. vm_compute in H. discriminate H.
Qed.

(** ** InetAddressType *)

Lemma format_u_length (b : byte) : (String.length (Libc.format_u b) <= 3)%nat.
Proof. destruct b; vm_compute; lia. Qed.

Lemma length_string_append (s t : string) :
  String.length (String.append s t) = (String.length s + String.length t)%nat.
Proof.
  induction s as [|c s IH]; [reflexivity|].
  change (S (String.length (String.append s t))
          = S (String.length s + String.length t)).
  now f_equal.
Qed.

(** The dotted-decimal text of four octets fits the presentation buffer. *)
Lemma inet_ntop_AF_INET (a b c d : byte) :
  Libc.inet_ntop AF_INET [a; b; c; d] INET6_ADDRSTRLEN
  = Some (String.append (Libc.format_u a)
           (String "." (String.append (Libc.format_u b)
             (String "." (String.append (Libc.format_u c)
               (String "." (Libc.format_u d))))))).
Proof.
  unfold Libc.inet_ntop, Libc.inet_ntop4_text. cbn [map nth String.concat].
  change (String.append "." ?s) with (String "." s).
  match goal with |- (if ?c then _ else _) = _ => destruct c eqn:E end;
    [reflexivity|].
  exfalso. apply Z.ltb_ge in E. revert E.
  repeat (rewrite ?length_string_append; cbn [String.length]).
  pose proof (format_u_length a). pose proof (format_u_length b).
  pose proof (format_u_length c). pose proof (format_u_length d).
  unfold INET6_ADDRSTRLEN. lia.
Qed.

Lemma format_x_length (w : Z) : (String.length (Libc.format_x w) <= 4)%nat.
Proof.
  unfold Libc.format_x.
  destruct (4096 <=? w); [cbn; lia|].
  destruct (256 <=? w); [cbn; lia|].
  destruct (16 <=? w); cbn; lia.
Qed.

Lemma inet_ntop4_text_length (src : list byte) :
  (String.length (Libc.inet_ntop4_text src) <= 15)%nat.
Proof.
  unfold Libc.inet_ntop4_text. cbn [map String.concat].
  change (String.append "." ?s) with (String "." s).
  repeat (rewrite ?length_string_append; cbn [String.length]).
  pose proof (format_u_length (nth 0 src x00)).
  pose proof (format_u_length (nth 1 src x00)).
  pose proof (format_u_length (nth 2 src x00)).
  pose proof (format_u_length (nth 3 src x00)).
  lia.
Qed.

(** Outside the encapsulated form every word costs five characters at most. *)
Lemma inet6_emit_length src all best words i :
  (forall j, Libc.encapsulated_ipv4 best j all = false) ->
  (String.length (Libc.inet6_emit src all best words i) <= 5 * length words)%nat.
Proof.
  intros Hplain. revert i.
  induction words as [|w words IH]; intros i; [cbn; lia|].
  cbn [Libc.inet6_emit length]. rewrite Hplain.
  specialize (IH (S i)).
  destruct (Libc.in_run best i).
  - rewrite length_string_append.
    destruct (match best with Some (b, _) => (i =? b)%nat | None => false end);
      cbn [String.length]; lia.
  - rewrite !length_string_append.
    pose proof (format_x_length w).
    destruct (i =? 0)%nat; cbn [String.length]; lia.
Qed.

Lemma encapsulated_ipv4_cases best j all :
  Libc.encapsulated_ipv4 best j all = true ->
  j = 6%nat /\ (best = Some (0, 6)%nat \/ best = Some (0, 5)%nat).
Proof.
  unfold Libc.encapsulated_ipv4.
  destruct best as [[[|b] l]|]; try discriminate.
  intros H. apply andb_true_iff in H as [Hj H].
  apply Nat.eqb_eq in Hj. split; [exact Hj|].
  apply orb_true_iff in H as [H|H].
  - apply Nat.eqb_eq in H. subst. now left.
  - apply andb_true_iff in H as [H _]. apply Nat.eqb_eq in H. subst. now right.
Qed.

Lemma inet_ntop6_text_length (src : list byte) :
  (String.length (Libc.inet_ntop6_text src) <= 45)%nat.
Proof.
  unfold Libc.inet_ntop6_text.
  set (words := Libc.inet6_words src).
  set (best := Libc.best_run words).
  assert (length words = 8%nat) as Hlen by reflexivity.
  destruct (Libc.encapsulated_ipv4 best 6 words) eqn:Henc.
  - pose proof (encapsulated_ipv4_cases _ _ _ Henc) as [_ Hbest].
    pose proof (inet_ntop4_text_length (skipn 12 src)) as H4.
    assert (exists w0 w1 w2 w3 w4 w5 w6 w7, words = [w0; w1; w2; w3; w4; w5; w6; w7])
      as (w0 & w1 & w2 & w3 & w4 & w5 & w6 & w7 & Hw).
    { unfold words, Libc.inet6_words. cbn [seq map]. repeat eexists. }
    pose proof (format_x_length w5) as H5.
    clearbody words best. subst words.
    destruct Hbest as [-> | ->].
    + cbn [Libc.inet6_emit Libc.in_run Nat.leb Nat.ltb Nat.add andb Nat.eqb].
      unfold Libc.encapsulated_ipv4. cbn [Nat.eqb andb orb].
      repeat (rewrite ?length_string_append; cbn [String.length]). lia.
    + cbn [Libc.inet6_emit Libc.in_run Nat.leb Nat.ltb Nat.add andb Nat.eqb].
      rewrite Henc.
      unfold Libc.encapsulated_ipv4. cbn [Nat.eqb andb orb].
      repeat (rewrite ?length_string_append; cbn [String.length]). lia.
  - assert (forall j, Libc.encapsulated_ipv4 best j words = false) as Hplain.
    { intros j. destruct (Libc.encapsulated_ipv4 best j words) eqn:E; [|reflexivity].
      pose proof (encapsulated_ipv4_cases _ _ _ E) as [-> _]. congruence. }
    pose proof (inet6_emit_length src words best words 0%nat Hplain) as H.
    rewrite length_string_append, Hlen in *.
    destruct best as [[b l]|]; [destruct (b + l =? 8)%nat|];
      cbn [String.length]; lia.
Qed.

(** The colon-hex text of sixteen octets fits the presentation buffer. *)
Lemma inet_ntop_AF_INET6 (src : list byte) :
  Libc.inet_ntop AF_INET6 src INET6_ADDRSTRLEN = Some (Libc.inet_ntop6_text src).
Proof.
  unfold Libc.inet_ntop, INET6_ADDRSTRLEN.
  pose proof (inet_ntop6_text_length src).
  destruct (Z.ltb_spec (Z.of_nat (String.length (Libc.inet_ntop6_text src))) 46);
    [reflexivity|lia].
Qed.

(** C8.  The call on an address window, for any conversion routine of the
    C library.  A window of a length other than 4 and 16 octets fails with
    [ValueError], a Malformed failure, and the buffer is left as it was.  A
    window of 4 octets is converted as [AF_INET] and one of 16 octets as
    [AF_INET6]; the text the routine gives is the result, and when the
    routine fails the call fails with [OSError].  With the C library's
    routine, four octets give their dotted-decimal text and sixteen octets
    their colon-hex text, as the sixteen octets of 2001:db8::ff00:42:8329
    give that text. *)
Theorem CqlInetAddressType_Deserialize_spec :
  (forall inet_ntop buffer v,
      Residual buffer <> 4 -> Residual buffer <> 16 ->
      exists e,
        CqlInetAddressType_Deserialize inet_ntop buffer v = (inl e, buffer)
        /\ exc_type e = PyExc_ValueError /\ Malformed e)
  /\
  (forall inet_ntop buffer v af,
      (Residual buffer = 4 /\ af = AF_INET) \/
      (Residual buffer = 16 /\ af = AF_INET6) ->
      CqlInetAddressType_Deserialize inet_ntop buffer v
      = (match inet_ntop af (_data buffer) INET6_ADDRSTRLEN with
         | Some presentation => inr (PyString presentation)
         | None => inl (PyErr_SetString PyExc_OSError
                          "error converting Internet address")
         end, mkBuffer []))
  /\
  (forall a b c d v,
      CqlInetAddressType_Deserialize Libc.inet_ntop (mkBuffer [a; b; c; d]) v
      = (inr (PyString
                (String.append (Libc.format_u a)
                  (String "." (String.append (Libc.format_u b)
                    (String "." (String.append (Libc.format_u c)
                      (String "." (Libc.format_u d)))))))),
         mkBuffer []))
  /\
  (forall buffer v,
      Residual buffer = 16 ->
      CqlInetAddressType_Deserialize Libc.inet_ntop buffer v
      = (inr (PyString (Libc.inet_ntop6_text (_data buffer))), mkBuffer []))
  /\
  (forall v,
      CqlInetAddressType_Deserialize Libc.inet_ntop
        (mkBuffer [x20; x01; x0d; xb8; x00; x00; x00; x00;
                   x00; x00; xff; x00; x00; x42; x83; x29]) v
      = (inr (PyString "2001:db8::ff00:42:8329"), mkBuffer [])).
Proof.
  assert (forall inet_ntop buffer v af,
             (Residual buffer = 4 /\ af = AF_INET) \/
             (Residual buffer = 16 /\ af = AF_INET6) ->
             CqlInetAddressType_Deserialize inet_ntop buffer v
             = (match inet_ntop af (_data buffer) INET6_ADDRSTRLEN with
                | Some presentation => inr (PyString presentation)
                | None => inl (PyErr_SetString PyExc_OSError
                                 "error converting Internet address")
                end, mkBuffer [])) as Hconv.
  { intros inet_ntop [data] v af Hlen.
    unfold CqlInetAddressType_Deserialize.
    rewrite Residual_mkBuffer in *. cbn [_data].
    rewrite Consume_all. cbn [octets].
    destruct Hlen as [[-> ->]|[-> ->]]; cbn [Z.eqb Pos.eqb negb andb];
      destruct (inet_ntop _ data INET6_ADDRSTRLEN); reflexivity. }
  split; [|split; [exact Hconv|split; [|split]]].
  - intros inet_ntop buffer v H4 H16. eexists.
    unfold CqlInetAddressType_Deserialize.
    destruct (Z.eqb_spec (Residual buffer) 4); [contradiction|].
    destruct (Z.eqb_spec (Residual buffer) 16); [contradiction|].
    cbn [negb andb]. split; [reflexivity|]. split; [reflexivity|now left].
  - intros a b c d v.
    rewrite (Hconv _ _ _ AF_INET) by (left; split; reflexivity).
    cbn [_data]. now rewrite inet_ntop_AF_INET.
  - intros buffer v H16.
    rewrite (Hconv _ _ _ AF_INET6) by (right; split; [exact H16|reflexivity]).
    now rewrite inet_ntop_AF_INET6.
  - intros v. reflexivity.
Qed.

Lemma CqlInetAddressType_Deserialize_spec_witness :
  (exists e,
      CqlInetAddressType_Deserialize Libc.inet_ntop
        (mkBuffer [xc0; xa8; x00; x01; x00]) 3
      = (inl e, mkBuffer [xc0; xa8; x00; x01; x00])
      /\ exc_type e = PyExc_ValueError /\ Malformed e)
  /\
  CqlInetAddressType_Deserialize Libc.inet_ntop (mkBuffer [xc0; xa8; x00; x01]) 3
  = (inr (PyString "192.168.0.1"), mkBuffer [])
  /\
  CqlInetAddressType_Deserialize (fun _ _ _ => None)
    (mkBuffer [xc0; xa8; x00; x01]) 3
  = (inl (PyErr_SetString PyExc_OSError "error converting Internet address"),
     mkBuffer []).
Proof.
  split; [|split].
  - apply (proj1 CqlInetAddressType_Deserialize_spec Libc.inet_ntop
             (mkBuffer [xc0; xa8; x00; x01; x00]) 3); vm_compute; discriminate.
  - apply (proj1 (proj2 CqlInetAddressType_Deserialize_spec) Libc.inet_ntop
             (mkBuffer [xc0; xa8; x00; x01]) 3 AF_INET).
    left. split; reflexivity.
  - apply (proj1 (proj2 CqlInetAddressType_Deserialize_spec) (fun _ _ _ => None)
             (mkBuffer [xc0; xa8; x00; x01]) 3 AF_INET).
    left. split; reflexivity.
Defined.

(** ** ListType: the item count *)

Lemma CqlListType_itemCount_negative (v : Z) (itemCountData : list byte) :
  3 <= v ->
  UnpackInt32 itemCountData < 0 ->
  CqlListType_itemCount v itemCountData = 2 ^ 64 + UnpackInt32 itemCountData.
Proof.
  intros Hv Hneg.
  pose proof (UnpackInt32_range itemCountData) as Hr.
  unfold CqlListType_itemCount.
  rewrite CqlListType_unpack_v3 by exact Hv.
  apply to_size_t_neg. lia.
Qed.

Lemma PyList_New_negative (size : Z) :
  size < 0 -> PyList_New size = inl PyErr_BadInternalCall.
Proof.
  intros Hneg. unfold PyList_New.
  destruct (Z.ltb_spec size 0); [reflexivity|lia].
Qed.

Lemma CqlListType_Deserialize_refused
    (item : Deserializer) (v : Z) (itemCountData rest : list byte) :
  3 <= v ->
  Z.of_nat (length itemCountData) = 4 ->
  UnpackInt32 itemCountData < 0 ->
  CqlListType_Deserialize item (mkBuffer (itemCountData ++ rest)) v
  = (inl PyErr_BadInternalCall, mkBuffer rest).
Proof.
  intros Hv Hw Hneg.
  pose proof (UnpackInt32_range itemCountData) as Hr.
  unfold CqlListType_Deserialize.
  rewrite Consume_app by (now rewrite CqlListType_sizeSize_v3).
  unfold CqlListType_items.
  rewrite CqlListType_itemCount_negative by assumption.
  rewrite to_ssize_t_high by lia.
  rewrite PyList_New_negative by lia.
  reflexivity.
Qed.

Lemma CqlListType_drain_empty
    (item : Deserializer) (remaining i : nat) (lst : list (option PyObject))
    (v : Z) :
  CqlListType_drain item remaining i lst (mkBuffer []) v
  = (inr (PyList lst), mkBuffer []).
Proof.
  destruct remaining as [|remaining]; [reflexivity|].
  cbn [CqlListType_drain].
  rewrite Consume_short; [reflexivity|].
  unfold Residual, CqlListType_sizeSize. cbn [_data length].
  destruct (3 <=? v); lia.
Qed.

(** C9 as stated does not hold.  On the window [ff ff ff ff] at protocol
    version 3 the count reads -1 and the item count is 2^64 - 1.  Were that
    count used to allocate the result sequence and to bound the decode
    loop, the call would return what the loop returns on a list of that
    many slots, which on this window is the list itself (the loop stops at
    the first size field, no octet being left).  But no list is allocated:
    [PyList_New] takes its size as the signed [Py_ssize_t], to which the
    count is -1 again, and refuses it; the call returns [SystemError]. *)
Lemma CqlListType_Deserialize_negative_count_no_list :
  UnpackInt32 [xff; xff; xff; xff] = -1 /\
  CqlListType_itemCount 3 [xff; xff; xff; xff] = 2 ^ 64 - 1 /\
  (forall lst,
     PyList_New (to_ssize_t (CqlListType_itemCount 3 [xff; xff; xff; xff]))
     <> inr lst) /\
  (forall lst,
     CqlListType_Deserialize CqlInt32Type_Deserialize
       (mkBuffer [xff; xff; xff; xff]) 3
     <> CqlListType_drain CqlInt32Type_Deserialize
          (Z.to_nat (CqlListType_itemCount 3 [xff; xff; xff; xff])) 0 lst
          (mkBuffer []) 3) /\
  exists e,
    CqlListType_Deserialize CqlInt32Type_Deserialize
      (mkBuffer [xff; xff; xff; xff]) 3 = (inl e, mkBuffer []) /\
    exc_type e = PyExc_SystemError.
Proof.
  assert (CqlListType_Deserialize CqlInt32Type_Deserialize
            (mkBuffer [xff; xff; xff; xff]) 3
          = (inl PyErr_BadInternalCall, mkBuffer [])) as Hcall.
  { apply (CqlListType_Deserialize_refused CqlInt32Type_Deserialize 3
             [xff; xff; xff; xff] []); [lia|reflexivity|reflexivity]. }
  split; [reflexivity|]. split; [reflexivity|]. split; [|split].
  - intros lst.
    change (CqlListType_itemCount 3 [xff; xff; xff; xff]) with (2 ^ 64 - 1).
    rewrite to_ssize_t_high by lia.
    rewrite PyList_New_negative by lia. discriminate.
  - intros lst. rewrite Hcall, CqlListType_drain_empty. discriminate.
  - exists PyErr_BadInternalCall. split; [exact Hcall|reflexivity].
Qed.

(** C9, amended.  From protocol version 3 on, a count prefix that reads
    negative as a signed 32-bit integer is not refused as Malformed:
    converted to [size_t] it is the count plus 2^64, a number of at least
    2^64 - 2^31, and that number is handed to [PyList_New].  There it is
    the negative count again (the parameter is the signed [Py_ssize_t]), no
    list is allocated and the call fails with [SystemError], whatever the
    item type and whatever follows the count: the loop is not entered, no
    item is decoded and no octet after the count is consumed. *)
Theorem CqlListType_Deserialize_negative_count_refused
    (v : Z) (itemCountData : list byte) :
  3 <= v ->
  Z.of_nat (length itemCountData) = 4 ->
  UnpackInt32 itemCountData < 0 ->
  let itemCount := CqlListType_itemCount v itemCountData in
  itemCount = 2 ^ 64 + UnpackInt32 itemCountData /\
  2 ^ 64 - 2 ^ 31 <= itemCount < 2 ^ 64 /\
  to_ssize_t itemCount = UnpackInt32 itemCountData /\
  (forall lst, PyList_New (to_ssize_t itemCount) <> inr lst) /\
  exists e,
    exc_type e = PyExc_SystemError /\
    ~ Malformed e /\
    forall (item : Deserializer) (rest : list byte),
      CqlListType_Deserialize item (mkBuffer (itemCountData ++ rest)) v
      = (inl e, mkBuffer rest).
Proof.
  intros Hv Hw Hneg itemCount.
  pose proof (UnpackInt32_range itemCountData) as Hr.
  assert (itemCount = 2 ^ 64 + UnpackInt32 itemCountData) as Hcount
    by (now apply CqlListType_itemCount_negative).
  assert (to_ssize_t itemCount = UnpackInt32 itemCountData) as Hsigned.
  { rewrite to_ssize_t_high by lia. lia. }
  split; [exact Hcount|]. split; [lia|]. split; [exact Hsigned|]. split.
  - intros lst. rewrite Hsigned, PyList_New_negative by lia. discriminate.
  - exists PyErr_BadInternalCall. split; [reflexivity|]. split.
    + intros [H|H]; discriminate H.
    + intros item rest. now apply CqlListType_Deserialize_refused.
Qed.

Lemma CqlListType_Deserialize_negative_count_refused_witness :
  CqlListType_itemCount 3 [xff; xff; xff; xff] = 2 ^ 64 + - 1 /\
  exists e,
    exc_type e = PyExc_SystemError /\
    CqlListType_Deserialize CqlInt32Type_Deserialize
      (mkBuffer ([xff; xff; xff; xff]
                 ++ [x00; x00; x00; x04; x00; x00; x00; x01])) 3
    = (inl e, mkBuffer [x00; x00; x00; x04; x00; x00; x00; x01]).
Proof.
  pose proof (CqlListType_Deserialize_negative_count_refused 3
                [xff; xff; xff; xff] ltac:(lia) eq_refl eq_refl)
    as (H1 & _ & _ & _ & e & He & _ & H2).
  split; [exact H1|].
  exists e. split; [exact He|]. apply H2.
Defined.

(** ** Ownership and the heap *)

Lemma delete_CqlType_live (t : CqlType) (heap : Heap) :
  live (delete_CqlType t heap) = live heap - footprint_CqlType t
with delete_CqlTypeReference_live (r : CqlTypeReference) (heap : Heap) :
  live (delete_CqlTypeReference r heap) = live heap - footprint_CqlTypeReference r.
Proof.
  - destruct t as [| | | | | | | | | | | |_subtypes|_itemType];
      try (cbn; lia).
    + cbn [delete_CqlType footprint_CqlType free live].
      enough (forall h,
                 live ((fix each (it : list CqlTypeReference) (heap : Heap) : Heap :=
                          match it with
                          | [] => heap
                          | r :: it => each it (delete_CqlTypeReference r heap)
                          end) _subtypes h)
                 = live h - fold_right
                              (fun r n => footprint_CqlTypeReference r + n) 0
                              _subtypes) as E by (rewrite E; lia).
      induction _subtypes as [|r it IH]; intros h.
      * cbn. lia.
      * cbn [fold_right]. rewrite IH, delete_CqlTypeReference_live. lia.
    + cbn [delete_CqlType footprint_CqlType free live].
      rewrite delete_CqlTypeReference_live. lia.
  - destruct r as [t|t].
    + cbn. lia.
    + cbn [delete_CqlTypeReference footprint_CqlTypeReference free live].
      rewrite delete_CqlType_live. lia.
Qed.

Lemma delete_each_live (subtypes : list CqlTypeReference) (heap : Heap) :
  live (delete_each subtypes heap) = live heap - footprint_each subtypes.
Proof.
  unfold delete_each, footprint_each. revert heap.
  induction subtypes as [|r subtypes IH]; intros heap.
  - cbn. lia.
  - cbn [fold_left fold_right]. rewrite IH, delete_CqlTypeReference_live. lia.
Qed.

Lemma footprint_CqlType_pos (t : CqlType) :
  1 <= footprint_CqlType t
with footprint_CqlTypeReference_pos (r : CqlTypeReference) :
  1 <= footprint_CqlTypeReference r.
Proof.
  - destruct t as [| | | | | | | | | | | |_subtypes|_itemType]; try (cbn; lia).
    + cbn [footprint_CqlType].
      enough (0 <= fold_right (fun r n => footprint_CqlTypeReference r + n) 0
                     _subtypes) by lia.
      induction _subtypes as [|r it IH]; cbn [fold_right]; [lia|].
      pose proof (footprint_CqlTypeReference_pos r). lia.
    + cbn [footprint_CqlType].
      pose proof (footprint_CqlTypeReference_pos _itemType). lia.
  - destruct r as [t|t]; cbn [footprint_CqlTypeReference]; [lia|].
    pose proof (footprint_CqlType_pos t). lia.
Qed.

Lemma footprint_each_length (subtypes : list CqlTypeReference) :
  Z.of_nat (length subtypes) <= footprint_each subtypes.
Proof.
  unfold footprint_each.
  induction subtypes as [|r subtypes IH]; cbn [fold_right length]; [lia|].
  pose proof (footprint_CqlTypeReference_pos r). lia.
Qed.

(** ** ResolveSubtypes *)

Section Resolution.

Variable ReferenceFromPython :
  PyCqlType -> Heap -> (PyErr + CqlTypeReference) * Heap.

Lemma ResolveSubtypes_each_resolved pySubtypes heap resolved heap1 :
  Resolved ReferenceFromPython pySubtypes heap resolved heap1 ->
  forall rest subtypes,
    ResolveSubtypes_each ReferenceFromPython (pySubtypes ++ rest) subtypes heap
    = ResolveSubtypes_each ReferenceFromPython rest (subtypes ++ resolved) heap1.
Proof.
  induction 1 as [heap|pySubtype pySubtypes heap subtype heap1 resolved heap2
                   Hcall _ IH]; intros rest subtypes.
  - now rewrite app_nil_r.
  - cbn [app ResolveSubtypes_each]. rewrite Hcall, IH, <- app_assoc.
    reflexivity.
Qed.

Lemma ResolveSubtypes_sequence pyCqlType pySubtypes subtypes heap :
  PyObject_GetAttrString_subtypes pyCqlType = SubtypeTuple pySubtypes \/
  PyObject_GetAttrString_subtypes pyCqlType = SubtypeList pySubtypes ->
  ResolveSubtypes ReferenceFromPython pyCqlType subtypes heap
  = ResolveSubtypes_each ReferenceFromPython pySubtypes subtypes heap.
Proof. unfold ResolveSubtypes. now intros [-> | ->]. Qed.

End Resolution.

(** C7.  A descriptor whose [subtypes] attribute is a tuple or a list, in
    which the subtypes before some position resolve and the one at that
    position does not.  [ResolveSubtypes] returns false with the failure of
    that subtype as the exception set and with the output vector empty;
    every reference resolved before has been deleted, which takes the
    objects it owns off the heap; neither composite constructor builds a
    type.  When those references account for what their resolution added
    to the heap and the failing call left the heap as it found it, the heap
    is back in its initial state: nothing leaks. *)
Theorem ResolveSubtypes_failure_releases
    (ReferenceFromPython : PyCqlType -> Heap -> (PyErr + CqlTypeReference) * Heap)
    (pyCqlType : PyCqlType) (pre : list PyCqlType) (pySubtype : PyCqlType)
    (post : list PyCqlType) (heap : Heap) (resolved : list CqlTypeReference)
    (heap1 : Heap) (e : PyErr) (heap2 : Heap) :
  PyObject_GetAttrString_subtypes pyCqlType = SubtypeTuple (pre ++ pySubtype :: post) \/
  PyObject_GetAttrString_subtypes pyCqlType = SubtypeList (pre ++ pySubtype :: post) ->
  Resolved ReferenceFromPython pre heap resolved heap1 ->
  ReferenceFromPython pySubtype heap1 = (inl e, heap2) ->
  ResolveSubtypes ReferenceFromPython pyCqlType [] heap
  = (inl e, [], delete_each resolved heap2) /\
  live (delete_each resolved heap2) = live heap2 - footprint_each resolved /\
  CqlTupleType_FromPython ReferenceFromPython pyCqlType heap
  = (inl e, delete_each resolved heap2) /\
  CqlListType_FromPython ReferenceFromPython pyCqlType heap
  = (inl e, delete_each resolved heap2) /\
  (live heap1 = live heap + footprint_each resolved ->
   heap2 = heap1 ->
   delete_each resolved heap2 = heap).
Proof.
  intros Hattr Hpre Hfail.
  assert (ResolveSubtypes ReferenceFromPython pyCqlType [] heap
          = (inl e, [], delete_each resolved heap2)) as Hres.
  { rewrite (ResolveSubtypes_sequence _ _ _ _ _ Hattr).
    rewrite (ResolveSubtypes_each_resolved _ _ _ _ _ Hpre).
    cbn [app ResolveSubtypes_each]. now rewrite Hfail. }
  split; [exact Hres|]. split; [apply delete_each_live|].
  split; [unfold CqlTupleType_FromPython; now rewrite Hres|].
  split; [unfold CqlListType_FromPython; now rewrite Hres|].
  intros Hacc ->.
  pose proof (delete_each_live resolved heap1) as Hlive.
  destruct (delete_each resolved heap1) as [n], heap as [n0].
  cbn [live] in *. f_equal. lia.
Qed.

Lemma ResolveSubtypes_failure_releases_witness :
  ResolveSubtypes CqlTypeFactory_ReferenceFromPython
    (py_TupleType ([py_TupleType [py_Int32Type]; py_ListType [py_Int32Type]]
                   ++ py_CounterColumnType :: [py_Int32Type]))
    [] (mkHeap 0)
  = (inl (PyErr_SetString PyExc_ValueError "unsupported type"), [], mkHeap 0) /\
  CqlTupleType_FromPython CqlTypeFactory_ReferenceFromPython
    (py_TupleType ([py_TupleType [py_Int32Type]; py_ListType [py_Int32Type]]
                   ++ py_CounterColumnType :: [py_Int32Type]))
    (mkHeap 0)
  = (inl (PyErr_SetString PyExc_ValueError "unsupported type"), mkHeap 0).
Proof.
  pose proof (ResolveSubtypes_failure_releases CqlTypeFactory_ReferenceFromPython
                (py_TupleType
                   ([py_TupleType [py_Int32Type]; py_ListType [py_Int32Type]]
                    ++ py_CounterColumnType :: [py_Int32Type]))
                [py_TupleType [py_Int32Type]; py_ListType [py_Int32Type]]
                py_CounterColumnType [py_Int32Type] (mkHeap 0)
                [Owned (CqlTupleType [Borrowed CqlInt32Type]);
                 Owned (CqlListType (Borrowed CqlInt32Type))]
                (mkHeap 6)
                (PyErr_SetString PyExc_ValueError "unsupported type")
                (mkHeap 6)) as H.
  destruct H as (H1 & _ & H2 & _).
  - left. reflexivity.
  - apply (Resolved_cons _ _ _ _ _ (mkHeap 3)); [reflexivity|].
    apply (Resolved_cons _ _ _ _ _ (mkHeap 6)); [reflexivity|].
    apply Resolved_nil.
  - reflexivity.
  - split; [exact H1|exact H2].
Defined.

(** C10.  A list descriptor whose subtypes all resolve but are not exactly
    one.  [CqlListType::FromPython] fails with [TypeError], a Malformed
    failure, and the heap it leaves is the heap as the last resolution left
    it: no resolved reference has been deleted.  When the references
    account for what their resolution added to the heap, every object they
    own is still live, at least one per reference, where deleting them
    would have brought the heap back to its initial size. *)
Theorem CqlListType_FromPython_leaks
    (ReferenceFromPython : PyCqlType -> Heap -> (PyErr + CqlTypeReference) * Heap)
    (pyCqlType : PyCqlType) (pySubtypes : list PyCqlType) (heap : Heap)
    (resolved : list CqlTypeReference) (heap1 : Heap) :
  PyObject_GetAttrString_subtypes pyCqlType = SubtypeTuple pySubtypes \/
  PyObject_GetAttrString_subtypes pyCqlType = SubtypeList pySubtypes ->
  Resolved ReferenceFromPython pySubtypes heap resolved heap1 ->
  length resolved <> 1%nat ->
  live heap1 = live heap + footprint_each resolved ->
  exists e heap',
    CqlListType_FromPython ReferenceFromPython pyCqlType heap = (inl e, heap') /\
    e = PyErr_SetString PyExc_TypeError "list does not have one subtype" /\
    Malformed e /\
    heap' = heap1 /\
    live heap' - live heap = footprint_each resolved /\
    Z.of_nat (length resolved) <= live heap' - live heap /\
    live (delete_each resolved heap') = live heap.
Proof.
  intros Hattr Hall Hlen Hacc.
  exists (PyErr_SetString PyExc_TypeError "list does not have one subtype"), heap1.
  split.
  - unfold CqlListType_FromPython.
    rewrite (ResolveSubtypes_sequence _ _ _ _ _ Hattr).
    pose proof (ResolveSubtypes_each_resolved _ _ _ _ _ Hall [] []) as E.
    rewrite app_nil_r in E. rewrite E. cbn [app ResolveSubtypes_each].
    destruct resolved as [|r [|r' resolved]]; [reflexivity|now cbn in Hlen|reflexivity].
  - split; [reflexivity|]. split; [now right|]. split; [reflexivity|].
    split; [lia|]. split.
    + pose proof (footprint_each_length resolved). lia.
    + rewrite delete_each_live. lia.
Qed.

Lemma CqlListType_FromPython_leaks_witness :
  exists e heap',
    CqlListType_FromPython CqlTypeFactory_ReferenceFromPython
      (py_ListType [py_Int32Type; py_Int32Type]) (mkHeap 0)
    = (inl e, heap') /\
    e = PyErr_SetString PyExc_TypeError "list does not have one subtype" /\
    Malformed e /\
    heap' = mkHeap 2 /\
    live heap' - live (mkHeap 0)
    = footprint_each [Borrowed CqlInt32Type; Borrowed CqlInt32Type] /\
    Z.of_nat (length [Borrowed CqlInt32Type; Borrowed CqlInt32Type])
    <= live heap' - live (mkHeap 0) /\
    live (delete_each [Borrowed CqlInt32Type; Borrowed CqlInt32Type] heap')
    = live (mkHeap 0).
Proof.
  apply (CqlListType_FromPython_leaks CqlTypeFactory_ReferenceFromPython
           (py_ListType [py_Int32Type; py_Int32Type])
           [py_Int32Type; py_Int32Type] (mkHeap 0)
           [Borrowed CqlInt32Type; Borrowed CqlInt32Type] (mkHeap 2)).
  - right. reflexivity.
  - apply (Resolved_cons _ _ _ _ _ (mkHeap 1)); [reflexivity|].
    apply (Resolved_cons _ _ _ _ _ (mkHeap 2)); [reflexivity|].
    apply Resolved_nil.
  - cbn. lia.
  - reflexivity.
Defined.

(** ** Worked examples on the type graph *)

Section Examples.

(** The examples use the C library's [inet_ntop] and Python's [Decimal];
    the collaborators of the types they do not mention are left open. *)
Variable UnmarshalFloat32 : list byte -> PyObject.
Variable UnmarshalFloat64 : list byte -> PyObject.
Variable PyString_AsDecodedObject_utf8 : string -> PyResult.
Variable _pythonUuidType : list PyObject -> PyResult.
Variable PyFloat_FromDouble_seconds : Z -> PyObject.
Variable _pythonDatetimeUtcFromTimestamp : list PyObject -> PyResult.

(** A [list<int>] inside a tuple, decoded at protocol version 2: the tuple
    passes version 3 down, so the count and the sizes of the inner list are
    4 octets wide. *)
Example Deserialize_tuple_of_list_v2 :
  Deserialize Libc.inet_ntop decimal_Decimal UnmarshalFloat32 UnmarshalFloat64
    PyString_AsDecodedObject_utf8 _pythonUuidType PyFloat_FromDouble_seconds
    _pythonDatetimeUtcFromTimestamp
    (CqlTupleType [Owned (CqlListType (Borrowed CqlInt32Type))])
    (mkBuffer [x00; x00; x00; x0c;
               x00; x00; x00; x01; x00; x00; x00; x04; x00; x00; x00; x2a]) 2
  = (inr (PyTuple [Some (PyList [Some (PyInt 42)])]), mkBuffer []).
Proof. reflexivity. Qed.

(** The same list on its own at version 2 has 2-octet fields. *)
Example Deserialize_list_v2 :
  Deserialize Libc.inet_ntop decimal_Decimal UnmarshalFloat32 UnmarshalFloat64
    PyString_AsDecodedObject_utf8 _pythonUuidType PyFloat_FromDouble_seconds
    _pythonDatetimeUtcFromTimestamp
    (CqlListType (Borrowed CqlInt32Type))
    (mkBuffer [x00; x01; x00; x04; x00; x00; x00; x2a]) 2
  = (inr (PyList [Some (PyInt 42)]), mkBuffer []).
Proof. reflexivity. Qed.

(** A tuple of a decimal, an address and a varint. *)
Example Deserialize_tuple_mixed :
  Deserialize Libc.inet_ntop decimal_Decimal UnmarshalFloat32 UnmarshalFloat64
    PyString_AsDecodedObject_utf8 _pythonUuidType PyFloat_FromDouble_seconds
    _pythonDatetimeUtcFromTimestamp
    (CqlTupleType [Borrowed CqlDecimalType; Borrowed CqlInetAddressType;
                   Borrowed CqlIntegerType])
    (mkBuffer [x00; x00; x00; x06; x00; x00; x00; x02; x30; x39;
               x00; x00; x00; x04; x7f; x00; x00; x01;
               x00; x00; x00; x02; xff; x00]) 4
  = (inr (PyTuple [Some (PyDecimal 12345 (-2)); Some (PyString "127.0.0.1");
                   Some (PyLong (-256))]),
     mkBuffer []).
Proof. reflexivity. Qed.

End Examples.

(** Colon-hex presentations the C library's routine gives. *)
Example inet_ntop_AF_INET6_samples :
  Libc.inet_ntop AF_INET6
    [x00; x00; x00; x00; x00; x00; x00; x00;
     x00; x00; x00; x00; x00; x00; x00; x01] INET6_ADDRSTRLEN = Some "::1" /\
  Libc.inet_ntop AF_INET6
    [x00; x00; x00; x00; x00; x00; x00; x00;
     x00; x00; xff; xff; xc0; xa8; x00; x01] INET6_ADDRSTRLEN
  = Some "::ffff:192.168.0.1" /\
  Libc.inet_ntop AF_INET6
    [x00; x01; x00; x00; x00; x02; x00; x00;
     x00; x00; x00; x03; x00; x00; x00; x00] INET6_ADDRSTRLEN
  = Some "1:0:2::3:0:0".
Proof. repeat split. Qed.

(** A resolved composite reference, deleted, gives back all it took. *)
Example ReferenceFromPython_then_delete :
  match CqlTypeFactory_ReferenceFromPython
          (py_TupleType [py_ListType [py_Int32Type]; py_Int32Type]) (mkHeap 0) with
  | (inr r, heap) =>
      r = Owned (CqlTupleType [Owned (CqlListType (Borrowed CqlInt32Type));
                               Borrowed CqlInt32Type])
      /\ heap = mkHeap 6 /\ delete_CqlTypeReference r heap = mkHeap 0
  | (inl _, _) => False
  end.
Proof. repeat split. Qed.

(** ** The buffer only moves forward *)

Lemma Buffer_eta (buffer : Buffer) : mkBuffer (_data buffer) = buffer.
Proof. now destruct buffer. Qed.

Lemma Consume_inv (size : Z) (buffer : Buffer) (data : list byte) (buffer' : Buffer) :
  Consume size buffer = Some (data, buffer') ->
  _data buffer = data ++ _data buffer' /\
  length data = Z.to_nat size /\ size <= Residual buffer.
Proof.
  unfold Consume. destruct (Z.leb_spec size (Residual buffer)) as [Hle|]; [|discriminate].
  intros [= <- <-]. cbn [_data]. rewrite take_drop. split; [reflexivity|].
  split; [|exact Hle]. rewrite length_take. unfold Residual in Hle. lia.
Qed.

Lemma Consume_Residual (buffer : Buffer) :
  Consume (Residual buffer) buffer = Some (_data buffer, mkBuffer []).
Proof.
  unfold Residual. rewrite <- (Buffer_eta buffer) at 2. apply Consume_all.
Qed.

Lemma residual_octets_all (buffer : Buffer) :
  residual_octets buffer = (_data buffer, mkBuffer []).
Proof.
  unfold residual_octets. destruct (Z.eqb_spec (Residual buffer) 0) as [H0|_].
  - destruct buffer as [[|b data]]; [reflexivity|].
    unfold Residual in H0. cbn [_data length] in H0. lia.
  - now rewrite Consume_Residual.
Qed.

Lemma CqlTupleType_drain_suffix subtypes :
  forall i tuple missing buffer v,
  exists consumed,
    _data buffer
    = consumed ++ _data (snd (CqlTupleType_drain subtypes i tuple missing buffer v)).
Proof.
  induction subtypes as [|subtype subtypes IH]; intros i tuple missing buffer v.
  - now exists [].
  - cbn [CqlTupleType_drain].
    destruct (Consume 4 buffer) as [[sizeData buffer1]|] eqn:E1; [|now exists []].
    apply Consume_inv in E1 as (E1 & _ & _).
    destruct (UnpackInt32 sizeData <? 0); [now exists sizeData|].
    destruct (Consume _ buffer1) as [[itemData buffer2]|] eqn:E2;
      [|now exists sizeData].
    apply Consume_inv in E2 as (E2 & _ & _).
    destruct (fst _).
    + exists (sizeData ++ itemData). cbn [snd]. now rewrite <- app_assoc, <- E2.
    + destruct (IH (S i) (PyTuple_SetItem tuple i p) (missing - 1)%nat buffer2 v)
        as [consumed E].
      exists (sizeData ++ itemData ++ consumed).
      now rewrite <- !app_assoc, <- E, <- E2.
Qed.

Lemma CqlListType_drain_suffix item remaining :
  forall i lst buffer v,
  exists consumed,
    _data buffer
    = consumed ++ _data (snd (CqlListType_drain item remaining i lst buffer v)).
Proof.
  induction remaining as [|remaining IH]; intros i lst buffer v.
  - now exists [].
  - cbn [CqlListType_drain].
    destruct (Consume _ buffer) as [[sizeData buffer1]|] eqn:E1; [|now exists []].
    apply Consume_inv in E1 as (E1 & _ & _).
    destruct (to_int32 _ <? 0); [now exists sizeData|].
    destruct (Consume _ buffer1) as [[itemData buffer2]|] eqn:E2;
      [|now exists sizeData].
    apply Consume_inv in E2 as (E2 & _ & _).
    destruct (fst _).
    + exists (sizeData ++ itemData). cbn [snd]. now rewrite <- app_assoc, <- E2.
    + destruct (IH (S i) (PyList_SetItem lst i p) buffer2 v) as [consumed E].
      exists (sizeData ++ itemData ++ consumed).
      now rewrite <- !app_assoc, <- E, <- E2.
Qed.

Lemma CqlTupleType_Deserialize_suffix subtypes buffer v :
  exists consumed,
    _data buffer = consumed ++ _data (snd (CqlTupleType_Deserialize subtypes buffer v)).
Proof.
  unfold CqlTupleType_Deserialize.
  destruct (PyTuple_New _) as [e|tuple]; [now exists []|].
  destruct (CqlTupleType_drain_suffix subtypes 0 tuple (length subtypes) buffer
              (if v <? 3 then 3 else v)) as [consumed E].
  exists consumed.
  destruct (CqlTupleType_drain _ _ _ _ _ _) as [[e|[t m]] b]; exact E.
Qed.

Lemma CqlListType_Deserialize_suffix item buffer v :
  exists consumed,
    _data buffer = consumed ++ _data (snd (CqlListType_Deserialize item buffer v)).
Proof.
  unfold CqlListType_Deserialize.
  destruct (Consume _ buffer) as [[itemCountData buffer1]|] eqn:E1; [|now exists []].
  apply Consume_inv in E1 as (E1 & _ & _).
  unfold CqlListType_items.
  destruct (PyList_New _) as [e|lst]; [now exists itemCountData|].
  destruct (CqlListType_drain_suffix item
              (Z.to_nat (CqlListType_itemCount v itemCountData)) 0 lst buffer1 v)
    as [consumed E].
  exists (itemCountData ++ consumed). now rewrite <- app_assoc, <- E.
Qed.

Lemma IMPLEMENT_SIMPLE_CQL_TYPE_DESERIALIZE_suffix desc size unmarshal buffer v :
  exists consumed,
    _data buffer
    = consumed ++ _data (snd (IMPLEMENT_SIMPLE_CQL_TYPE_DESERIALIZE desc size unmarshal
                                buffer v)).
Proof.
  unfold IMPLEMENT_SIMPLE_CQL_TYPE_DESERIALIZE.
  destruct (Consume size buffer) as [[data buffer1]|] eqn:E1; [|now exists []].
  apply Consume_inv in E1 as (E1 & _ & _). now exists data.
Qed.

(** ** Fixed-width and whole-window types *)




(** X3.  The types that take the whole window: bytes, text, UUID and
    varint.  For every window, the empty one included and whatever its
    length, the call does not fail for lack of octets: all the octets of
    the window, unchanged, are what becomes the byte string, what is handed
    to the UTF-8 decoder, to the UUID constructor (after [None]) and to the
    varint decoder, and the buffer is left empty. *)
Theorem whole_window_Deserialize (buffer : Buffer) (v : Z) :
  CqlBytesType_Deserialize buffer v
  = (inr (PyString (string_of_list_byte (_data buffer))), mkBuffer []) /\
  (forall decode,
      CqlUtf8Type_Deserialize decode buffer v
      = (decode (string_of_list_byte (_data buffer)), mkBuffer [])) /\
  (forall uuid,
      CqlUuidType_Deserialize uuid buffer v
      = (uuid [Py_None; PyString (string_of_list_byte (_data buffer))],
         mkBuffer [])) /\
  CqlIntegerType_Deserialize buffer v
  = (UnmarshalVarint (_data buffer) (Residual buffer), mkBuffer []) /\
  list_byte_of_string (string_of_list_byte (_data buffer)) = _data buffer.
Proof.
  repeat split.
  - unfold CqlBytesType_Deserialize.
    destruct (Z.eqb_spec (Residual buffer) 0) as [H0|_].
    + destruct buffer as [[|b data]]; [reflexivity|].
      unfold Residual in H0. cbn [_data length] in H0. lia.
    + now rewrite Consume_Residual.
  - intros decode. unfold CqlUtf8Type_Deserialize.
    now rewrite residual_octets_all.
  - intros uuid. unfold CqlUuidType_Deserialize.
    now rewrite residual_octets_all.
  - unfold CqlIntegerType_Deserialize. now rewrite Consume_Residual.
  - apply list_byte_of_string_of_list_byte.
Qed.

(** ** TupleType and ListType: elements that do not decode *)

(** X4.  In a tuple and in a list, after elements that are complete and
    decode: a size field that declares more octets than the window still
    holds makes the call fail with [EOFError] (the loop does not stop
    quietly as it does when the size field itself is missing); the size
    field has been consumed, the octets after it have not. *)
Theorem truncated_item_EOFError :
  (forall v pre subtype post bytes items sizeData rest,
      Encoded 4 UnpackInt32 (Z.max 3 v) pre bytes items ->
      Z.of_nat (length sizeData) = 4 ->
      Z.of_nat (length rest) < UnpackInt32 sizeData ->
      CqlTupleType_Deserialize (pre ++ subtype :: post)
        (mkBuffer (bytes ++ sizeData ++ rest)) v
      = (inl (PyErr_SetString PyExc_EOFError
                "unexpected end of buffer while reading tuple"),
         mkBuffer rest))
  /\
  (forall item v countData bytes items m sizeData rest,
      Z.of_nat (length countData) = CqlListType_sizeSize v ->
      CqlListType_unpack v countData = Z.of_nat (length items + S m) ->
      Encoded (CqlListType_sizeSize v) (CqlListType_unpack v) v
        (replicate (length items) item) bytes items ->
      Z.of_nat (length sizeData) = CqlListType_sizeSize v ->
      Z.of_nat (length rest) < CqlListType_unpack v sizeData ->
      CqlListType_Deserialize item
        (mkBuffer (countData ++ bytes ++ sizeData ++ rest)) v
      = (inl (PyErr_SetString PyExc_EOFError
                "unexpected end of buffer while reading list"),
         mkBuffer rest)).
Proof.
  split.
  - intros v pre subtype post bytes items sizeData rest Henc Hw Hshort.
    rewrite (CqlTupleType_Deserialize_prefix _ _ _ _ _ _ Henc).
    cbn [CqlTupleType_drain]. rewrite (Consume_app 4) by exact Hw.
    pose proof (UnpackInt32_range sizeData) as Hr.
    destruct (Z.ltb_spec (UnpackInt32 sizeData) 0); [lia|].
    rewrite to_size_t_id by lia.
    rewrite Consume_short by (rewrite Residual_mkBuffer; lia). reflexivity.
  - intros item v countData bytes items m sizeData rest Hw Hcount Henc Hws Hshort.
    rewrite (CqlListType_Deserialize_prefix _ _ _ _ _ _ _ Hw Hcount Henc).
    cbn [CqlListType_drain]. rewrite Consume_app by exact Hws.
    pose proof (CqlListType_unpack_range v sizeData) as Hr.
    rewrite to_int32_id by exact Hr.
    destruct (Z.ltb_spec (CqlListType_unpack v sizeData) 0); [lia|].
    rewrite to_size_t_id by lia.
    rewrite Consume_short by (rewrite Residual_mkBuffer; lia). reflexivity.
Qed.

Lemma truncated_item_EOFError_witness :
  CqlTupleType_Deserialize ([CqlInt32Type_Deserialize] ++ CqlInt32Type_Deserialize :: [])
    (mkBuffer (([x00; x00; x00; x04] ++ [x00; x00; x00; x01] ++ [])
               ++ [x00; x00; x00; x04] ++ [x00; x00; x00])) 3
  = (inl (PyErr_SetString PyExc_EOFError
            "unexpected end of buffer while reading tuple"),
     mkBuffer [x00; x00; x00])
  /\
  CqlListType_Deserialize CqlInt32Type_Deserialize
    (mkBuffer ([x00; x02] ++ ([x00; x04] ++ [x00; x00; x00; x01] ++ [])
               ++ [x00; x04] ++ [x00; x00; x00])) 2
  = (inl (PyErr_SetString PyExc_EOFError
            "unexpected end of buffer while reading list"),
     mkBuffer [x00; x00; x00]).
Proof.
  split.
  - apply (proj1 truncated_item_EOFError 3 [CqlInt32Type_Deserialize]
             CqlInt32Type_Deserialize [] _ [PyInt 1] [x00; x00; x00; x04]
             [x00; x00; x00]).
    + repeat (apply Encoded_cons || apply Encoded_nil); reflexivity.
    + reflexivity.
    + reflexivity.
  - apply (proj2 truncated_item_EOFError CqlInt32Type_Deserialize 2 [x00; x02] _
             [PyInt 1] 0%nat [x00; x04] [x00; x00; x00]).
    + reflexivity.
    + reflexivity.
    + repeat (apply Encoded_cons || apply Encoded_nil); reflexivity.
    + reflexivity.
    + reflexivity.
Defined.

(** X5.  In a tuple and in a list, after elements that are complete and
    decode: when the next element is complete but its subtype fails on it,
    the call fails with that very failure, unchanged, and the element's
    octets have been consumed; the elements after it are not looked at. *)
Theorem item_failure_propagates :
  (forall v pre (subtype : Deserializer) post bytes items sizeData itemData rest e,
      Encoded 4 UnpackInt32 (Z.max 3 v) pre bytes items ->
      Z.of_nat (length sizeData) = 4 ->
      UnpackInt32 sizeData = Z.of_nat (length itemData) ->
      fst (subtype (mkBuffer itemData) (Z.max 3 v)) = inl e ->
      CqlTupleType_Deserialize (pre ++ subtype :: post)
        (mkBuffer (bytes ++ sizeData ++ itemData ++ rest)) v
      = (inl e, mkBuffer rest))
  /\
  (forall (item : Deserializer) v countData bytes items m sizeData itemData rest e,
      Z.of_nat (length countData) = CqlListType_sizeSize v ->
      CqlListType_unpack v countData = Z.of_nat (length items + S m) ->
      Encoded (CqlListType_sizeSize v) (CqlListType_unpack v) v
        (replicate (length items) item) bytes items ->
      Z.of_nat (length sizeData) = CqlListType_sizeSize v ->
      CqlListType_unpack v sizeData = Z.of_nat (length itemData) ->
      fst (item (mkBuffer itemData) v) = inl e ->
      CqlListType_Deserialize item
        (mkBuffer (countData ++ bytes ++ sizeData ++ itemData ++ rest)) v
      = (inl e, mkBuffer rest)).
Proof.
  split.
  - intros v pre subtype post bytes items sizeData itemData rest e
      Henc Hw Hsize Hfail.
    rewrite (CqlTupleType_Deserialize_prefix _ _ _ _ _ _ Henc).
    cbn [CqlTupleType_drain]. rewrite (Consume_app 4) by exact Hw.
    pose proof (UnpackInt32_range sizeData) as Hr. rewrite Hsize in *.
    destruct (Z.ltb_spec (Z.of_nat (length itemData)) 0); [lia|].
    rewrite to_size_t_id by lia. rewrite Consume_app by reflexivity.
    destruct (subtype (mkBuffer itemData) (Z.max 3 v)) as [r b'].
    cbn [fst] in Hfail |- *. now subst r.
  - intros item v countData bytes items m sizeData itemData rest e
      Hw Hcount Henc Hws Hsize Hfail.
    rewrite (CqlListType_Deserialize_prefix _ _ _ _ _ _ _ Hw Hcount Henc).
    cbn [CqlListType_drain]. rewrite Consume_app by exact Hws.
    pose proof (CqlListType_unpack_range v sizeData) as Hr.
    rewrite to_int32_id by exact Hr. rewrite Hsize in *.
    destruct (Z.ltb_spec (Z.of_nat (length itemData)) 0); [lia|].
    rewrite to_size_t_id by lia. rewrite Consume_app by reflexivity.
    destruct (item (mkBuffer itemData) v) as [r b'].
    cbn [fst] in Hfail |- *. now subst r.
Qed.

Lemma item_failure_propagates_witness :
  CqlTupleType_Deserialize
    ([CqlInt32Type_Deserialize] ++ CqlInt32Type_Deserialize :: [CqlInt32Type_Deserialize])
    (mkBuffer (([x00; x00; x00; x04] ++ [x00; x00; x00; x01] ++ [])
               ++ [x00; x00; x00; x02] ++ [x00; x01] ++ [x07])) 3
  = (inl (PyErr_SetString PyExc_EOFError
            "unexpected end of buffer deserializing signed 32-bit integer"),
     mkBuffer [x07])
  /\
  CqlListType_Deserialize (CqlInetAddressType_Deserialize Libc.inet_ntop)
    (mkBuffer ([x00; x01] ++ [] ++ [x00; x03] ++ [x7f; x00; x00] ++ [x07])) 2
  = (inl (PyErr_SetString PyExc_ValueError
            "expected buffer to either represent a 4 or 16 octet network address"),
     mkBuffer [x07]).
Proof.
  split.
  - apply (proj1 item_failure_propagates 3 [CqlInt32Type_Deserialize]
             CqlInt32Type_Deserialize [CqlInt32Type_Deserialize] _ [PyInt 1]
             [x00; x00; x00; x02] [x00; x01] [x07]).
    + repeat (apply Encoded_cons || apply Encoded_nil); reflexivity.
    + reflexivity.
    + reflexivity.
    + reflexivity.
  - apply (proj2 item_failure_propagates
             (CqlInetAddressType_Deserialize Libc.inet_ntop) 2 [x00; x01] [] []
             0%nat [x00; x03] [x7f; x00; x00] [x07]).
    + reflexivity.
    + reflexivity.
    + apply Encoded_nil.
    + reflexivity.
    + reflexivity.
    + reflexivity.
Defined.

(** ** TupleType: a window without elements *)

Lemma CqlTupleType_backfill_all (n : nat) :
  CqlTupleType_backfill n (replicate n None) = replicate n (Some Py_None).
Proof.
  apply list_eq. intros j. rewrite CqlTupleType_backfill_lookup, length_replicate.
  case_decide as Hj.
  - symmetry. apply lookup_replicate_2. lia.
  - rewrite !(proj1 (lookup_replicate_None _ _ _)) by lia. reflexivity.
Qed.

(** X6.  A tuple on a window that holds less than a size field, the empty
    window first of all: whatever the number of subtypes and the protocol
    version, the call succeeds, every slot of the tuple is [None] and the
    buffer is left as it was. *)
Theorem CqlTupleType_Deserialize_no_element
    (_subtypes : list Deserializer) (buffer : Buffer) (v : Z) :
  Residual buffer < 4 ->
  CqlTupleType_Deserialize _subtypes buffer v
  = (inr (PyTuple (replicate (length _subtypes) (Some Py_None))), buffer).
Proof.
  intros Hshort.
  pose proof (CqlTupleType_Deserialize_exhausted v [] _subtypes [] [] (_data buffer)
                (Encoded_nil _ _ _) Hshort) as E.
  cbn [app map] in E. rewrite Buffer_eta in E. rewrite E.
  now rewrite CqlTupleType_backfill_all.
Qed.

Lemma CqlTupleType_Deserialize_no_element_witness :
  CqlTupleType_Deserialize [CqlInt32Type_Deserialize; CqlBytesType_Deserialize]
    (mkBuffer [x00; x00; x00]) 1
  = (inr (PyTuple (replicate 2 (Some Py_None))), mkBuffer [x00; x00; x00]).
Proof.
  apply (CqlTupleType_Deserialize_no_element
           [CqlInt32Type_Deserialize; CqlBytesType_Deserialize]
           (mkBuffer [x00; x00; x00]) 1).
  reflexivity.
Defined.

(** ** TupleType and ListType: what a result tells about the window *)

Lemma Consume_None (size : Z) (buffer : Buffer) :
  Consume size buffer = None -> Residual buffer < size.
Proof.
  unfold Consume. destruct (Z.leb_spec size (Residual buffer)); [discriminate|lia].
Qed.

Lemma Consume_length (size : Z) (buffer : Buffer) (data : list byte) (buffer' : Buffer) :
  0 <= size ->
  Consume size buffer = Some (data, buffer') ->
  _data buffer = data ++ _data buffer' /\ Z.of_nat (length data) = size.
Proof.
  intros Hsize E. apply Consume_inv in E as (E & Hlen & _).
  split; [exact E|]. lia.
Qed.

Lemma CqlTupleType_drain_success v subtypes :
  forall done m missing buffer tuple' missing' buffer',
    CqlTupleType_drain subtypes (length done)
      (map Some done ++ replicate (length subtypes + m) None) missing buffer v
    = (inr (tuple', missing'), buffer') ->
    exists pre post bytes items,
      subtypes = pre ++ post /\
      _data buffer = bytes ++ _data buffer' /\
      Encoded 4 UnpackInt32 v pre bytes items /\
      (post = [] \/ Residual buffer' < 4) /\
      tuple' = map Some (done ++ items) ++ replicate (length post + m) None /\
      missing' = (missing - length pre)%nat.
Proof.
  induction subtypes as [|subtype subtypes IH];
    intros done m missing buffer tuple' missing' buffer' Hrun.
  - cbn in Hrun. injection Hrun as <- <- <-.
    exists [], [], [], [].
    split; [reflexivity|]. split; [reflexivity|]. split; [constructor|].
    split; [now left|]. split; [now rewrite app_nil_r|cbn; lia].
  - cbn [CqlTupleType_drain] in Hrun.
    destruct (Consume 4 buffer) as [[sizeData buffer1]|] eqn:E1.
    + apply Consume_length in E1 as [E1 Hw]; [|lia].
      pose proof (UnpackInt32_range sizeData) as Hr.
      destruct (Z.ltb_spec (UnpackInt32 sizeData) 0) as [|Hpos]; [discriminate|].
      rewrite to_size_t_id in Hrun by lia.
      destruct (Consume _ buffer1) as [[itemData buffer2]|] eqn:E2; [|discriminate].
      apply Consume_length in E2 as [E2 Hsize]; [|exact Hpos].
      destruct (subtype (mkBuffer itemData) v) as [[e|des] b'] eqn:Hdes;
        cbn [fst] in Hrun; [discriminate|].
      unfold PyTuple_SetItem in Hrun. cbn [length Nat.add] in Hrun.
      rewrite set_first_null in Hrun.
      replace (S (length done)) with (length (done ++ [des])) in Hrun
        by (rewrite length_app; cbn; lia).
      apply IH in Hrun
        as (pre & post & bytes & items & -> & E3 & Henc & Hend & -> & ->).
      exists (subtype :: pre), post, (sizeData ++ itemData ++ bytes), (des :: items).
      split; [reflexivity|]. split.
      { rewrite E1, E2, E3. now rewrite <- !app_assoc. }
      split.
      { apply Encoded_cons; [exact Hw|now symmetry| |exact Henc].
        now rewrite Hdes. }
      split; [exact Hend|]. split.
      { now rewrite <- app_assoc. }
      cbn [length]. lia.
    + injection Hrun as <- <- <-.
      exists [], (subtype :: subtypes), [], [].
      split; [reflexivity|]. split; [reflexivity|]. split; [constructor|].
      split; [right; now apply Consume_None|].
      split; [now rewrite app_nil_r|cbn; lia].
Qed.

(** X7.  Whenever a tuple call returns a value, the octets it consumed are
    complete elements, one for each subtype of a prefix of the declared
    subtypes and each decoded by its subtype at the forced version; the
    subtypes left over, if any, are there because less than a size field
    remained.  The value is a tuple with one slot per declared subtype. *)
Theorem CqlTupleType_Deserialize_success
    (_subtypes : list Deserializer) (buffer : Buffer) (v : Z)
    (o : PyObject) (buffer' : Buffer) :
  CqlTupleType_Deserialize _subtypes buffer v = (inr o, buffer') ->
  exists pre post bytes items slots,
    _subtypes = pre ++ post /\
    _data buffer = bytes ++ _data buffer' /\
    Encoded 4 UnpackInt32 (Z.max 3 v) pre bytes items /\
    (post = [] \/ Residual buffer' < 4) /\
    o = PyTuple slots /\
    slots = CqlTupleType_backfill (length post)
              (map Some items ++ replicate (length post) None) /\
    length slots = length _subtypes.
Proof.
  unfold CqlTupleType_Deserialize, PyTuple_New. intros Hrun.
  destruct (Z.ltb_spec (Z.of_nat (length _subtypes)) 0); [lia|].
  rewrite forced_version, Nat2Z.id in Hrun.
  destruct (CqlTupleType_drain _ _ _ _ _ _) as [[e|[tuple' missing']] b] eqn:Hdrain;
    [discriminate|].
  injection Hrun as <- <-.
  pose proof (CqlTupleType_drain_success (Z.max 3 v) _subtypes [] 0%nat
                (length _subtypes) buffer tuple' missing' b) as Hinv.
  cbn [length map app] in Hinv. rewrite Nat.add_0_r in Hinv.
  apply Hinv in Hdrain
    as (pre & post & bytes & items & -> & E & Henc & Hend & -> & ->).
  pose proof (Encoded_length _ _ _ _ _ _ Henc) as Hlen.
  exists pre, post, bytes, items. eexists.
  split; [reflexivity|]. split; [exact E|]. split; [exact Henc|].
  split; [exact Hend|]. split; [reflexivity|]. split.
  - rewrite length_app, Nat.add_0_r.
    replace (length pre + length post - length pre)%nat with (length post) by lia.
    reflexivity.
  - rewrite CqlTupleType_backfill_length, !length_app, length_map, length_replicate.
    lia.
Qed.

Lemma CqlTupleType_Deserialize_success_witness :
  exists pre post bytes items slots,
    [CqlInt32Type_Deserialize; CqlBooleanType_Deserialize] = pre ++ post /\
    _data (mkBuffer [x00; x00; x00; x04; x00; x00; x00; x01;
                     x00; x00; x00; x01; x01; x09])
    = bytes ++ _data (mkBuffer [x09]) /\
    Encoded 4 UnpackInt32 (Z.max 3 2) pre bytes items /\
    (post = [] \/ Residual (mkBuffer [x09]) < 4) /\
    PyTuple [Some (PyInt 1); Some (PyBool true)] = PyTuple slots /\
    slots = CqlTupleType_backfill (length post)
              (map Some items ++ replicate (length post) None) /\
    length slots = length [CqlInt32Type_Deserialize; CqlBooleanType_Deserialize].
Proof.
  apply (CqlTupleType_Deserialize_success
           [CqlInt32Type_Deserialize; CqlBooleanType_Deserialize]
           (mkBuffer [x00; x00; x00; x04; x00; x00; x00; x01;
                      x00; x00; x00; x01; x01; x09]) 2).
  reflexivity.
Defined.

Lemma CqlListType_drain_success item v remaining :
  forall done m buffer o buffer',
    CqlListType_drain item remaining (length done)
      (map Some done ++ replicate (remaining + m) None) buffer v
    = (inr o, buffer') ->
    exists bytes items left,
      (length items + left = remaining)%nat /\
      _data buffer = bytes ++ _data buffer' /\
      Encoded (CqlListType_sizeSize v) (CqlListType_unpack v) v
        (replicate (length items) item) bytes items /\
      (left = 0%nat \/ Residual buffer' < CqlListType_sizeSize v) /\
      o = PyList (map Some (done ++ items) ++ replicate (left + m) None).
Proof.
  assert (0 <= CqlListType_sizeSize v) as Hss
    by (unfold CqlListType_sizeSize; destruct (3 <=? v); lia).
  induction remaining as [|remaining IH]; intros done m buffer o buffer' Hrun.
  - cbn in Hrun. injection Hrun as <- <-.
    exists [], [], 0%nat.
    split; [reflexivity|]. split; [reflexivity|]. split; [constructor|].
    split; [now left|]. now rewrite app_nil_r.
  - cbn [CqlListType_drain] in Hrun.
    destruct (Consume _ buffer) as [[sizeData buffer1]|] eqn:E1.
    + apply Consume_length in E1 as [E1 Hw]; [|exact Hss].
      pose proof (CqlListType_unpack_range v sizeData) as Hr.
      rewrite to_int32_id in Hrun by exact Hr.
      destruct (Z.ltb_spec (CqlListType_unpack v sizeData) 0) as [|Hpos];
        [discriminate|].
      rewrite to_size_t_id in Hrun by lia.
      destruct (Consume _ buffer1) as [[itemData buffer2]|] eqn:E2; [|discriminate].
      apply Consume_length in E2 as [E2 Hsize]; [|exact Hpos].
      destruct (item (mkBuffer itemData) v) as [[e|des] b'] eqn:Hdes;
        cbn [fst] in Hrun; [discriminate|].
      unfold PyList_SetItem in Hrun. cbn [Nat.add] in Hrun.
      rewrite set_first_null in Hrun.
      replace (S (length done)) with (length (done ++ [des])) in Hrun
        by (rewrite length_app; cbn; lia).
      apply IH in Hrun as (bytes & items & left & Hn & E3 & Henc & Hend & ->).
      exists (sizeData ++ itemData ++ bytes), (des :: items), left.
      split; [cbn [length]; lia|]. split.
      { rewrite E1, E2, E3. now rewrite <- !app_assoc. }
      split.
      { cbn [length replicate].
        apply Encoded_cons; [exact Hw|now symmetry| |exact Henc].
        now rewrite Hdes. }
      split; [exact Hend|]. now rewrite <- app_assoc.
    + injection Hrun as <- <-.
      exists [], [], (S remaining).
      split; [reflexivity|]. split; [reflexivity|]. split; [constructor|].
      split; [right; now apply Consume_None|]. now rewrite app_nil_r.
Qed.

(** X8.  Whenever a list call returns a value, the window began with a
    count prefix that reads as a number that is not negative, followed by
    complete elements, each decoded by the item type at the version of the
    call; fewer elements than the count says are there only because less
    than a size field remained.  The value is a list with as many slots as
    the count says, the decoded items first and NULL slots after them. *)
Theorem CqlListType_Deserialize_success
    (item : Deserializer) (buffer : Buffer) (v : Z)
    (o : PyObject) (buffer' : Buffer) :
  CqlListType_Deserialize item buffer v = (inr o, buffer') ->
  exists countData bytes items left,
    _data buffer = countData ++ bytes ++ _data buffer' /\
    Z.of_nat (length countData) = CqlListType_sizeSize v /\
    CqlListType_unpack v countData = Z.of_nat (length items + left) /\
    Encoded (CqlListType_sizeSize v) (CqlListType_unpack v) v
      (replicate (length items) item) bytes items /\
    (left = 0%nat \/ Residual buffer' < CqlListType_sizeSize v) /\
    o = PyList (map Some items ++ replicate left None).
Proof.
  assert (0 <= CqlListType_sizeSize v) as Hss
    by (unfold CqlListType_sizeSize; destruct (3 <=? v); lia).
  unfold CqlListType_Deserialize. intros Hrun.
  destruct (Consume _ buffer) as [[countData buffer1]|] eqn:E1; [|discriminate].
  apply Consume_length in E1 as [E1 Hw]; [|exact Hss].
  unfold CqlListType_items, CqlListType_itemCount, PyList_New in Hrun.
  pose proof (CqlListType_unpack_range v countData) as Hr.
  destruct (Z.neg_nonneg_cases (CqlListType_unpack v countData)) as [Hneg|Hpos].
  - exfalso. rewrite to_size_t_neg in Hrun by lia.
    rewrite to_ssize_t_high in Hrun by lia.
    destruct (Z.ltb_spec (2 ^ 64 + CqlListType_unpack v countData - 2 ^ 64) 0);
      [discriminate|lia].
  - rewrite to_size_t_id in Hrun by lia. rewrite to_ssize_t_id in Hrun by lia.
    destruct (Z.ltb_spec (CqlListType_unpack v countData) 0); [lia|].
    pose proof (CqlListType_drain_success item v
                  (Z.to_nat (CqlListType_unpack v countData)) [] 0%nat
                  buffer1 o buffer') as Hinv.
    cbn [length map app] in Hinv. rewrite Nat.add_0_r in Hinv.
    apply Hinv in Hrun as (bytes & items & left & Hn & E2 & Henc & Hend & ->).
    exists countData, bytes, items, left.
    split; [now rewrite E1, E2|]. split; [exact Hw|]. split; [lia|].
    split; [exact Henc|]. split; [exact Hend|]. now rewrite Nat.add_0_r.
Qed.

Lemma CqlListType_Deserialize_success_witness :
  exists countData bytes items left,
    _data (mkBuffer [x00; x03; x00; x04; x00; x00; x00; x01; x09])
    = countData ++ bytes ++ _data (mkBuffer [x09]) /\
    Z.of_nat (length countData) = CqlListType_sizeSize 2 /\
    CqlListType_unpack 2 countData = Z.of_nat (length items + left) /\
    Encoded (CqlListType_sizeSize 2) (CqlListType_unpack 2) 2
      (replicate (length items) CqlInt32Type_Deserialize) bytes items /\
    (left = 0%nat \/ Residual (mkBuffer [x09]) < CqlListType_sizeSize 2) /\
    PyList [Some (PyInt 1); None; None]
    = PyList (map Some items ++ replicate left None).
Proof.
  apply (CqlListType_Deserialize_success CqlInt32Type_Deserialize
           (mkBuffer [x00; x03; x00; x04; x00; x00; x00; x01; x09]) 2).
  reflexivity.
Defined.

Lemma CqlTupleType_drain_failure v subtypes :
  forall i tuple missing buffer e buffer',
    CqlTupleType_drain subtypes i tuple missing buffer v = (inl e, buffer') ->
    e = PyErr_SetString PyExc_ValueError "negative item size in tuple" \/
    e = PyErr_SetString PyExc_EOFError "unexpected end of buffer while reading tuple" \/
    exists (subtype : Deserializer) itemData,
      In subtype subtypes /\ fst (subtype (mkBuffer itemData) v) = inl e.
Proof.
  induction subtypes as [|subtype subtypes IH];
    intros i tuple missing buffer e buffer' Hrun.
  - discriminate.
  - cbn [CqlTupleType_drain] in Hrun.
    destruct (Consume 4 buffer) as [[sizeData buffer1]|]; [|discriminate].
    destruct (UnpackInt32 sizeData <? 0).
    { injection Hrun as <- _. now left. }
    destruct (Consume _ buffer1) as [[itemData buffer2]|].
    2:{ injection Hrun as <- _. right. now left. }
    destruct (subtype (mkBuffer itemData) v) as [[e'|des] b'] eqn:Hdes;
      cbn [fst] in Hrun.
    + injection Hrun as <- _. right. right.
      exists subtype, itemData. split; [now left|now rewrite Hdes].
    + apply IH in Hrun as [H|[H|(s & d & Hin & H)]];
        [now left|right; now left|].
      right. right. exists s, d. split; [now right|exact H].
Qed.

Lemma CqlListType_drain_failure item v remaining :
  forall i lst buffer e buffer',
    CqlListType_drain item remaining i lst buffer v = (inl e, buffer') ->
    e = PyErr_SetString PyExc_ValueError "negative item size in list" \/
    e = PyErr_SetString PyExc_EOFError "unexpected end of buffer while reading list" \/
    exists itemData, fst (item (mkBuffer itemData) v) = inl e.
Proof.
  induction remaining as [|remaining IH]; intros i lst buffer e buffer' Hrun.
  - discriminate.
  - cbn [CqlListType_drain] in Hrun.
    destruct (Consume _ buffer) as [[sizeData buffer1]|]; [|discriminate].
    destruct (to_int32 _ <? 0).
    { injection Hrun as <- _. now left. }
    destruct (Consume _ buffer1) as [[itemData buffer2]|].
    2:{ injection Hrun as <- _. right. now left. }
    destruct (item (mkBuffer itemData) v) as [[e'|des] b'] eqn:Hdes;
      cbn [fst] in Hrun.
    + injection Hrun as <- _. right. right.
      exists itemData. now rewrite Hdes.
    + now apply IH in Hrun.
Qed.

Lemma CqlTupleType_Deserialize_failure
    (_subtypes : list Deserializer) buffer v e buffer' :
  CqlTupleType_Deserialize _subtypes buffer v = (inl e, buffer') ->
  e = PyErr_SetString PyExc_ValueError "negative item size in tuple" \/
  e = PyErr_SetString PyExc_EOFError
        "unexpected end of buffer while reading tuple" \/
  exists (subtype : Deserializer) itemData,
    In subtype _subtypes /\
    fst (subtype (mkBuffer itemData) (Z.max 3 v)) = inl e.
Proof.
  unfold CqlTupleType_Deserialize, PyTuple_New.
  destruct (Z.ltb_spec (Z.of_nat (length _subtypes)) 0); [lia|].
  rewrite forced_version.
  destruct (CqlTupleType_drain _ _ _ _ _ _) as [[e'|[t m]] b] eqn:Hdrain;
    [|discriminate].
  intros [= <- _]. exact (CqlTupleType_drain_failure _ _ _ _ _ _ _ _ Hdrain).
Qed.

Lemma CqlListType_Deserialize_failure (item : Deserializer) buffer v e buffer' :
  CqlListType_Deserialize item buffer v = (inl e, buffer') ->
  e = PyErr_SetString PyExc_ValueError "negative item size in list" \/
  e = PyErr_SetString PyExc_EOFError
        "unexpected end of buffer while reading list" \/
  (exc_type e = PyExc_SystemError /\
   exists countData rest,
     _data buffer = countData ++ rest /\
     Z.of_nat (length countData) = CqlListType_sizeSize v /\
     CqlListType_unpack v countData < 0) \/
  exists itemData, fst (item (mkBuffer itemData) v) = inl e.
Proof.
  assert (0 <= CqlListType_sizeSize v) as Hss
    by (unfold CqlListType_sizeSize; destruct (3 <=? v); lia).
  unfold CqlListType_Deserialize.
  destruct (Consume _ buffer) as [[countData buffer1]|] eqn:E1.
  2:{ intros [= <- _]. right. now left. }
  apply Consume_length in E1 as [E1 Hw]; [|exact Hss].
  unfold CqlListType_items, CqlListType_itemCount, PyList_New.
  pose proof (CqlListType_unpack_range v countData) as Hr.
  destruct (Z.neg_nonneg_cases (CqlListType_unpack v countData)) as [Hneg|Hpos].
  - rewrite to_size_t_neg by lia. rewrite to_ssize_t_high by lia.
    destruct (Z.ltb_spec (2 ^ 64 + CqlListType_unpack v countData - 2 ^ 64) 0);
      [|lia].
    intros [= <- _]. right. right. left. split; [reflexivity|].
    exists countData, (_data buffer1). now repeat split.
  - rewrite to_size_t_id by lia. rewrite to_ssize_t_id by lia.
    destruct (Z.ltb_spec (CqlListType_unpack v countData) 0); [lia|].
    intros Hrun. apply CqlListType_drain_failure in Hrun as [Hv|[Ht|Hi]].
    + now left.
    + right. now left.
    + right. right. now right.
Qed.

(** X9.  The ways a composite call can fail.  A tuple call fails only with
    [ValueError] for a negative item size, with [EOFError] for an item cut
    short, or with the failure that one of its subtypes gave on some item
    at the forced version.  A list call fails only in the same three ways,
    with [EOFError] for a count prefix cut short, or with a [SystemError]
    when the count prefix reads negative. *)
Theorem composite_failure_kinds :
  (forall (_subtypes : list Deserializer) buffer v e buffer',
      CqlTupleType_Deserialize _subtypes buffer v = (inl e, buffer') ->
      e = PyErr_SetString PyExc_ValueError "negative item size in tuple" \/
      e = PyErr_SetString PyExc_EOFError
            "unexpected end of buffer while reading tuple" \/
      exists (subtype : Deserializer) itemData,
        In subtype _subtypes /\
        fst (subtype (mkBuffer itemData) (Z.max 3 v)) = inl e)
  /\
  (forall (item : Deserializer) buffer v e buffer',
      CqlListType_Deserialize item buffer v = (inl e, buffer') ->
      e = PyErr_SetString PyExc_ValueError "negative item size in list" \/
      e = PyErr_SetString PyExc_EOFError
            "unexpected end of buffer while reading list" \/
      (exc_type e = PyExc_SystemError /\
       exists countData rest,
         _data buffer = countData ++ rest /\
         Z.of_nat (length countData) = CqlListType_sizeSize v /\
         CqlListType_unpack v countData < 0) \/
      exists itemData, fst (item (mkBuffer itemData) v) = inl e).
Proof.
  split.
  - apply CqlTupleType_Deserialize_failure.
  - apply CqlListType_Deserialize_failure.
Qed.

Lemma composite_failure_kinds_witness :
  (exists e,
      CqlTupleType_Deserialize [CqlInt32Type_Deserialize]
        (mkBuffer [x00; x00; x00; x01; x07]) 1 = (inl e, mkBuffer []) /\
      (e = PyErr_SetString PyExc_ValueError "negative item size in tuple" \/
       e = PyErr_SetString PyExc_EOFError
             "unexpected end of buffer while reading tuple" \/
       exists (subtype : Deserializer) itemData,
         In subtype [CqlInt32Type_Deserialize] /\
         fst (subtype (mkBuffer itemData) (Z.max 3 1)) = inl e))
  /\
  (exists e,
      CqlListType_Deserialize CqlInt32Type_Deserialize
        (mkBuffer [xff; xfe; x00]) 2 = (inl e, mkBuffer [x00]) /\
      (e = PyErr_SetString PyExc_ValueError "negative item size in list" \/
       e = PyErr_SetString PyExc_EOFError
             "unexpected end of buffer while reading list" \/
       (exc_type e = PyExc_SystemError /\
        exists countData rest,
          _data (mkBuffer [xff; xfe; x00]) = countData ++ rest /\
          Z.of_nat (length countData) = CqlListType_sizeSize 2 /\
          CqlListType_unpack 2 countData < 0) \/
       exists itemData,
         fst (CqlInt32Type_Deserialize (mkBuffer itemData) 2) = inl e)).
Proof.
  split.
  - eexists. split; [reflexivity|].
    apply (proj1 composite_failure_kinds [CqlInt32Type_Deserialize]
             (mkBuffer [x00; x00; x00; x01; x07]) 1 _ (mkBuffer [])).
    reflexivity.
  - eexists. split; [reflexivity|].
    apply (proj2 composite_failure_kinds CqlInt32Type_Deserialize
             (mkBuffer [xff; xfe; x00]) 2 _ (mkBuffer [x00])).
    reflexivity.
Defined.

(** ** ResolveSubtypes and the constructors: success *)

Lemma ResolveSubtypes_each_success
    (ReferenceFromPython : PyCqlType -> Heap -> (PyErr + CqlTypeReference) * Heap)
    (pySubtypes : list PyCqlType) :
  forall subtypes heap ok subtypes' heap',
    ResolveSubtypes_each ReferenceFromPython pySubtypes subtypes heap
    = (inr ok, subtypes', heap') ->
    exists resolved,
      subtypes' = subtypes ++ resolved /\
      Resolved ReferenceFromPython pySubtypes heap resolved heap'.
Proof.
  induction pySubtypes as [|pySubtype pySubtypes IH];
    intros subtypes heap ok subtypes' heap' Hrun.
  - cbn in Hrun. injection Hrun as _ <- <-.
    exists []. split; [now rewrite app_nil_r|constructor].
  - cbn [ResolveSubtypes_each] in Hrun.
    destruct (ReferenceFromPython pySubtype heap) as [[e|subtype] heap1] eqn:Hcall;
      [discriminate|].
    apply IH in Hrun as (resolved & -> & Hres).
    exists (subtype :: resolved). split; [now rewrite <- app_assoc|].
    econstructor; eassumption.
Qed.

Lemma ResolveSubtypes_each_failure
    (ReferenceFromPython : PyCqlType -> Heap -> (PyErr + CqlTypeReference) * Heap)
    (pySubtypes : list PyCqlType) :
  forall subtypes heap e subtypes' heap',
    ResolveSubtypes_each ReferenceFromPython pySubtypes subtypes heap
    = (inl e, subtypes', heap') ->
    subtypes' = [].
Proof.
  induction pySubtypes as [|pySubtype pySubtypes IH];
    intros subtypes heap e subtypes' heap' Hrun.
  - discriminate.
  - cbn [ResolveSubtypes_each] in Hrun.
    destruct (ReferenceFromPython pySubtype heap) as [[e'|subtype] heap1].
    + now injection Hrun as _ <- _.
    + now apply IH in Hrun.
Qed.

(** X10.  [ResolveSubtypes], called on an empty vector with any factory,
    returns true exactly when the attribute [subtypes] is a tuple or a list
    and the factory resolves every item of it, one after the other, each
    from the heap the one before left; the vector then holds the references
    in the order of the items and the heap is the one the last resolution
    left.  When it returns false the vector is empty, never partly filled. *)
Theorem ResolveSubtypes_success_iff
    (ReferenceFromPython : PyCqlType -> Heap -> (PyErr + CqlTypeReference) * Heap)
    (pyCqlType : PyCqlType) (heap : Heap) :
  (forall subtypes heap',
      ResolveSubtypes ReferenceFromPython pyCqlType [] heap
      = (inr tt, subtypes, heap') <->
      exists pySubtypes,
        (PyObject_GetAttrString_subtypes pyCqlType = SubtypeTuple pySubtypes \/
         PyObject_GetAttrString_subtypes pyCqlType = SubtypeList pySubtypes) /\
        Resolved ReferenceFromPython pySubtypes heap subtypes heap') /\
  (forall e subtypes heap',
      ResolveSubtypes ReferenceFromPython pyCqlType [] heap
      = (inl e, subtypes, heap') ->
      subtypes = []).
Proof.
  split.
  - intros subtypes heap'. split.
    + unfold ResolveSubtypes.
      destruct (PyObject_GetAttrString_subtypes pyCqlType) as [|pys|pys|];
        try discriminate; intros Hrun;
        apply ResolveSubtypes_each_success in Hrun as (resolved & -> & Hres);
        exists pys; (split; [auto|exact Hres]).
    + intros (pySubtypes & Hattr & Hres).
      rewrite (ResolveSubtypes_sequence _ _ _ _ _ Hattr).
      pose proof (ResolveSubtypes_each_resolved _ _ _ _ _ Hres [] []) as E.
      rewrite app_nil_r in E. rewrite E. reflexivity.
  - intros e subtypes heap'. unfold ResolveSubtypes.
    destruct (PyObject_GetAttrString_subtypes pyCqlType) as [|pys|pys|].
    + now intros [= _ <- _].
    + apply ResolveSubtypes_each_failure.
    + apply ResolveSubtypes_each_failure.
    + now intros [= _ <- _].
Qed.

Lemma ResolveSubtypes_success_iff_witness :
  ResolveSubtypes CqlTypeFactory_ReferenceFromPython
    (py_TupleType [py_Int32Type; py_ListType [py_Int32Type]]) [] (mkHeap 0)
  = (inr tt,
     [Borrowed CqlInt32Type; Owned (CqlListType (Borrowed CqlInt32Type))],
     mkHeap 4).
Proof.
  apply (proj1 (ResolveSubtypes_success_iff CqlTypeFactory_ReferenceFromPython
                  (py_TupleType [py_Int32Type; py_ListType [py_Int32Type]])
                  (mkHeap 0))).
  exists [py_Int32Type; py_ListType [py_Int32Type]]. split; [now left|].
  apply (Resolved_cons _ _ _ _ _ (mkHeap 1)); [reflexivity|].
  apply (Resolved_cons _ _ _ _ _ (mkHeap 4)); [reflexivity|].
  apply Resolved_nil.
Defined.

(** X11.  Construction and destruction are inverse on the heap.  When the
    subtypes of a tuple descriptor all resolve, [CqlTupleType::FromPython]
    builds the tuple type over the references in the order of the
    descriptor, with one allocation more; when the one subtype of a list
    descriptor resolves, [CqlListType::FromPython] builds the list type
    over it.  If the references account for what their resolution added to
    the heap, the type built accounts for all that was added, and deleting
    it, which deletes every subtype reference in turn, gives back the heap
    as it was before the construction. *)
Theorem FromPython_then_delete
    (ReferenceFromPython : PyCqlType -> Heap -> (PyErr + CqlTypeReference) * Heap)
    (pyCqlType : PyCqlType) (pySubtypes : list PyCqlType) (heap : Heap)
    (resolved : list CqlTypeReference) (heap1 : Heap) :
  PyObject_GetAttrString_subtypes pyCqlType = SubtypeTuple pySubtypes \/
  PyObject_GetAttrString_subtypes pyCqlType = SubtypeList pySubtypes ->
  Resolved ReferenceFromPython pySubtypes heap resolved heap1 ->
  live heap1 = live heap + footprint_each resolved ->
  (CqlTupleType_FromPython ReferenceFromPython pyCqlType heap
   = (inr (CqlTupleType resolved), new heap1) /\
   live (new heap1) = live heap + footprint_CqlType (CqlTupleType resolved) /\
   delete_CqlType (CqlTupleType resolved) (new heap1) = heap) /\
  (forall itemType,
      resolved = [itemType] ->
      CqlListType_FromPython ReferenceFromPython pyCqlType heap
      = (inr (CqlListType itemType), new heap1) /\
      live (new heap1) = live heap + footprint_CqlType (CqlListType itemType) /\
      delete_CqlType (CqlListType itemType) (new heap1) = heap).
Proof.
  intros Hattr Hres Hacc.
  assert (ResolveSubtypes ReferenceFromPython pyCqlType [] heap
          = (inr tt, resolved, heap1)) as Hrun.
  { rewrite (ResolveSubtypes_sequence _ _ _ _ _ Hattr).
    pose proof (ResolveSubtypes_each_resolved _ _ _ _ _ Hres [] []) as E.
    rewrite app_nil_r in E. now rewrite E. }
  assert (forall t h, live (delete_CqlType t h) = live heap -> delete_CqlType t h = heap)
    as Hext.
  { intros t h E. destruct (delete_CqlType t h) as [n], heap as [n0].
    cbn [live] in E. now f_equal. }
  split.
  - split; [unfold CqlTupleType_FromPython; now rewrite Hrun|].
    assert (live (new heap1) = live heap + footprint_CqlType (CqlTupleType resolved))
      as Hlive.
    { cbn [new live footprint_CqlType]. unfold footprint_each in Hacc. lia. }
    split; [exact Hlive|].
    apply Hext. rewrite delete_CqlType_live. lia.
  - intros itemType ->.
    split; [unfold CqlListType_FromPython; now rewrite Hrun|].
    assert (live (new heap1) = live heap + footprint_CqlType (CqlListType itemType))
      as Hlive.
    { cbn [new live footprint_CqlType]. unfold footprint_each in Hacc.
      cbn [fold_right] in Hacc. lia. }
    split; [exact Hlive|].
    apply Hext. rewrite delete_CqlType_live. lia.
Qed.

Lemma FromPython_then_delete_witness :
  CqlTupleType_FromPython CqlTypeFactory_ReferenceFromPython
    (py_TupleType [py_Int32Type; py_ListType [py_Int32Type]]) (mkHeap 0)
  = (inr (CqlTupleType
            [Borrowed CqlInt32Type; Owned (CqlListType (Borrowed CqlInt32Type))]),
     new (mkHeap 4))
  /\
  delete_CqlType
    (CqlTupleType
       [Borrowed CqlInt32Type; Owned (CqlListType (Borrowed CqlInt32Type))])
    (new (mkHeap 4))
  = mkHeap 0.
Proof.
  pose proof (FromPython_then_delete CqlTypeFactory_ReferenceFromPython
                (py_TupleType [py_Int32Type; py_ListType [py_Int32Type]])
                [py_Int32Type; py_ListType [py_Int32Type]] (mkHeap 0)
                [Borrowed CqlInt32Type; Owned (CqlListType (Borrowed CqlInt32Type))]
                (mkHeap 4)) as H.
  destruct H as [(H1 & _ & H2) _].
  - left. reflexivity.
  - apply (Resolved_cons _ _ _ _ _ (mkHeap 1)); [reflexivity|].
    apply (Resolved_cons _ _ _ _ _ (mkHeap 4)); [reflexivity|].
    apply Resolved_nil.
  - reflexivity.
  - split; [exact H1|exact H2].
Defined.

(** ** DecimalType: the text handed to the constructor *)

(** X12.  A decimal window shorter than the 4 octets of the scale field
    fails with [EOFError], the buffer is left as it was and the constructor
    is not called.  A window with a scale field S other than the least
    32-bit integer and an unscaled value U: whatever constructor the type
    object holds, the result of the call is what the constructor returns
    on the one text made of U in decimal digits, the letter e and the
    negated scale in decimal digits; the whole window is consumed.  The
    decimal constructor reads that text back as U and the exponent [- S]. *)
Theorem CqlDecimalType_Deserialize_text
    (_pythonDecimalType : list PyObject -> PyResult) (v : Z) :
  (forall buffer,
      Residual buffer < 4 ->
      CqlDecimalType_Deserialize _pythonDecimalType buffer v
      = (inl (PyErr_SetString PyExc_EOFError
                "unexpected end of buffer deserializing decimal number"),
         buffer))
  /\
  (forall scaleData data,
      Z.of_nat (length scaleData) = 4 ->
      UnpackInt32 scaleData <> - 2 ^ 31 ->
      CqlDecimalType_Deserialize _pythonDecimalType (mkBuffer (scaleData ++ data)) v
      = (_pythonDecimalType
           [PyString
              (String.append (format_d (UnpackVarint data (Z.of_nat (length data))))
                 (String "e" (format_d (- UnpackInt32 scaleData))))],
         mkBuffer []) /\
      decimal_Decimal
        [PyString
           (String.append (format_d (UnpackVarint data (Z.of_nat (length data))))
              (String "e" (format_d (- UnpackInt32 scaleData))))]
      = inr (PyDecimal (UnpackVarint data (Z.of_nat (length data)))
               (- UnpackInt32 scaleData))).
Proof.
  split.
  - intros buffer Hshort. unfold CqlDecimalType_Deserialize.
    now rewrite Consume_short.
  - intros scaleData data Hw Hmin. split.
    + unfold CqlDecimalType_Deserialize.
      rewrite (Consume_app 4) by exact Hw.
      rewrite Residual_mkBuffer, Consume_all.
      pose proof (UnpackInt32_range scaleData) as Hr.
      rewrite to_int32_id by lia.
      reflexivity.
    + destruct (decimal_Decimal_format
                  (PyLong (UnpackVarint data (Z.of_nat (length data))))
                  (PyInt (- UnpackInt32 scaleData)) _ _ eq_refl eq_refl)
        as (stringRepr & _ & -> & E).
      exact E.
Qed.

Lemma CqlDecimalType_Deserialize_text_witness :
  CqlDecimalType_Deserialize (fun args => inr (PyTuple (map Some args)))
    (mkBuffer [x00; x00; x00]) 3
  = (inl (PyErr_SetString PyExc_EOFError
            "unexpected end of buffer deserializing decimal number"),
     mkBuffer [x00; x00; x00])
  /\
  CqlDecimalType_Deserialize (fun args => inr (PyTuple (map Some args)))
    (mkBuffer ([xff; xff; xff; xfd] ++ [xff; x85])) 3
  = (inr (PyTuple [Some (PyString "-123e3")]), mkBuffer []) /\
  decimal_Decimal [PyString "-123e3"] = inr (PyDecimal (-123) 3).
Proof.
  split.
  - apply (proj1 (CqlDecimalType_Deserialize_text
                    (fun args => inr (PyTuple (map Some args))) 3)).
    reflexivity.
  - apply (proj2 (CqlDecimalType_Deserialize_text
                    (fun args => inr (PyTuple (map Some args))) 3)
             [xff; xff; xff; xfd] [xff; x85]).
    + reflexivity.
    + vm_compute. discriminate.
Defined.

(** ** The type graph and the protocol version *)

Lemma CqlTupleType_drain_versions (v v' : Z) (subtypes : list Deserializer) :
  Forall (fun s : Deserializer => forall b, s b v = s b v') subtypes ->
  forall i tuple missing buffer,
    CqlTupleType_drain subtypes i tuple missing buffer v
    = CqlTupleType_drain subtypes i tuple missing buffer v'.
Proof.
  induction 1 as [|s subtypes Hs _ IH]; intros i tuple missing buffer.
  - reflexivity.
  - cbn [CqlTupleType_drain].
    destruct (Consume 4 buffer) as [[sizeData buffer1]|]; [|reflexivity].
    destruct (UnpackInt32 sizeData <? 0); [reflexivity|].
    destruct (Consume _ buffer1) as [[itemData buffer2]|]; [|reflexivity].
    rewrite Hs. destruct (fst _); [reflexivity|]. apply IH.
Qed.

Lemma CqlListType_drain_versions (v v' : Z) (item : Deserializer) :
  (3 <=? v) = (3 <=? v') ->
  (forall b, item b v = item b v') ->
  forall remaining i lst buffer,
    CqlListType_drain item remaining i lst buffer v
    = CqlListType_drain item remaining i lst buffer v'.
Proof.
  intros Hclass Hs. induction remaining as [|remaining IH]; intros i lst buffer.
  - reflexivity.
  - cbn [CqlListType_drain]. unfold CqlListType_sizeSize, CqlListType_unpack.
    rewrite Hclass.
    destruct (Consume _ buffer) as [[sizeData buffer1]|]; [|reflexivity].
    destruct (to_int32 _ <? 0); [reflexivity|].
    destruct (Consume _ buffer1) as [[itemData buffer2]|]; [|reflexivity].
    rewrite Hs. destruct (fst _); [reflexivity|]. apply IH.
Qed.

Lemma IMPLEMENT_SIMPLE_CQL_TYPE_DESERIALIZE_failure
    desc size unmarshal buffer v e buffer' :
  IMPLEMENT_SIMPLE_CQL_TYPE_DESERIALIZE desc size unmarshal buffer v
  = (inl e, buffer') ->
  exc_type e = PyExc_EOFError.
Proof.
  unfold IMPLEMENT_SIMPLE_CQL_TYPE_DESERIALIZE.
  destruct (Consume size buffer) as [[data b]|]; [discriminate|].
  now intros [= <- _].
Qed.

Section TypeGraph.

(** What the type objects of the graph were built with. *)
Variable inet_ntop : address_family -> list byte -> Z -> option string.
Variable _pythonDecimalType : list PyObject -> PyResult.
Variable UnmarshalFloat32 : list byte -> PyObject.
Variable UnmarshalFloat64 : list byte -> PyObject.
Variable PyString_AsDecodedObject_utf8 : string -> PyResult.
Variable _pythonUuidType : list PyObject -> PyResult.
Variable PyFloat_FromDouble_seconds : Z -> PyObject.
Variable _pythonDatetimeUtcFromTimestamp : list PyObject -> PyResult.

Lemma Deserialize_suffix (t : CqlType) (buffer : Buffer) (v : Z) :
  exists consumed,
    _data buffer
    = consumed
      ++ _data (snd (Deserialize inet_ntop _pythonDecimalType UnmarshalFloat32
                       UnmarshalFloat64 PyString_AsDecodedObject_utf8
                       _pythonUuidType PyFloat_FromDouble_seconds
                       _pythonDatetimeUtcFromTimestamp t buffer v)).
Proof.
  destruct t as [| | | | | | | | | | | |_subtypes|_itemType]; cbn [Deserialize].
  - apply IMPLEMENT_SIMPLE_CQL_TYPE_DESERIALIZE_suffix.
  - apply IMPLEMENT_SIMPLE_CQL_TYPE_DESERIALIZE_suffix.
  - apply IMPLEMENT_SIMPLE_CQL_TYPE_DESERIALIZE_suffix.
  - apply IMPLEMENT_SIMPLE_CQL_TYPE_DESERIALIZE_suffix.
  - apply IMPLEMENT_SIMPLE_CQL_TYPE_DESERIALIZE_suffix.
  - unfold CqlBytesType_Deserialize.
    destruct (Residual buffer =? 0); [now exists []|].
    rewrite Consume_Residual. cbn [octets snd _data].
    exists (_data buffer). now rewrite app_nil_r.
  - unfold CqlUtf8Type_Deserialize. rewrite residual_octets_all.
    cbn [snd _data]. exists (_data buffer). now rewrite app_nil_r.
  - unfold CqlUuidType_Deserialize. rewrite residual_octets_all.
    cbn [snd _data]. exists (_data buffer). now rewrite app_nil_r.
  - unfold CqlInetAddressType_Deserialize.
    destruct (negb _ && negb _)%bool; [now exists []|].
    rewrite Consume_Residual. cbn [octets].
    exists (_data buffer).
    destruct (inet_ntop _ _ _); cbn [snd _data]; now rewrite app_nil_r.
  - unfold CqlDateType_Deserialize.
    destruct (Consume 8 buffer) as [[data buffer1]|] eqn:E1; [|now exists []].
    apply Consume_inv in E1 as (E1 & _ & _). now exists data.
  - unfold CqlIntegerType_Deserialize.
    rewrite Consume_Residual. cbn [octets snd _data].
    exists (_data buffer). now rewrite app_nil_r.
  - unfold CqlDecimalType_Deserialize.
    destruct (Consume 4 buffer) as [[scaleData buffer1]|] eqn:E1; [|now exists []].
    apply Consume_inv in E1 as (E1 & _ & _).
    rewrite Consume_Residual. cbn [octets].
    exists (_data buffer). unfold UnmarshalVarint.
    destruct (PyString_Format_de _); cbn [snd _data]; now rewrite app_nil_r.
  - apply CqlTupleType_Deserialize_suffix.
  - apply CqlListType_Deserialize_suffix.
Qed.

(** X1.  For each of the fourteen types, nested as it may be, and whatever
    the window, the protocol version and the collaborators, [Deserialize]
    leaves a buffer that is a suffix of the one it was given: octets are
    consumed from the front only, none is put back, and a composite gives
    back its own buffer, never the window of an element; so the residual
    goes down by exactly the number of octets consumed. *)
Theorem Deserialize_consumes_prefix (t : CqlType) (buffer : Buffer) (v : Z) :
  exists consumed,
    _data buffer
    = consumed
      ++ _data (snd (Deserialize inet_ntop _pythonDecimalType UnmarshalFloat32
                       UnmarshalFloat64 PyString_AsDecodedObject_utf8
                       _pythonUuidType PyFloat_FromDouble_seconds
                       _pythonDatetimeUtcFromTimestamp t buffer v)) /\
    Residual (snd (Deserialize inet_ntop _pythonDecimalType UnmarshalFloat32
                     UnmarshalFloat64 PyString_AsDecodedObject_utf8
                     _pythonUuidType PyFloat_FromDouble_seconds
                     _pythonDatetimeUtcFromTimestamp t buffer v))
    = Residual buffer - Z.of_nat (length consumed).
Proof.
  destruct (Deserialize_suffix t buffer v) as [consumed E].
  exists consumed. split; [exact E|].
  pose proof (f_equal (@length byte) E) as El. rewrite length_app in El.
  unfold Residual. lia.
Qed.

Lemma Deserialize_versions (v v' : Z) (Hclass : (3 <=? v) = (3 <=? v'))
    (t : CqlType) :
  forall buffer,
    Deserialize inet_ntop _pythonDecimalType UnmarshalFloat32 UnmarshalFloat64
      PyString_AsDecodedObject_utf8 _pythonUuidType PyFloat_FromDouble_seconds
      _pythonDatetimeUtcFromTimestamp t buffer v
    = Deserialize inet_ntop _pythonDecimalType UnmarshalFloat32 UnmarshalFloat64
        PyString_AsDecodedObject_utf8 _pythonUuidType PyFloat_FromDouble_seconds
        _pythonDatetimeUtcFromTimestamp t buffer v'
with Deserialize_reference_versions (v v' : Z)
    (Hclass : (3 <=? v) = (3 <=? v')) (r : CqlTypeReference) :
  forall buffer,
    Deserialize inet_ntop _pythonDecimalType UnmarshalFloat32 UnmarshalFloat64
      PyString_AsDecodedObject_utf8 _pythonUuidType PyFloat_FromDouble_seconds
      _pythonDatetimeUtcFromTimestamp (Get r) buffer v
    = Deserialize inet_ntop _pythonDecimalType UnmarshalFloat32 UnmarshalFloat64
        PyString_AsDecodedObject_utf8 _pythonUuidType PyFloat_FromDouble_seconds
        _pythonDatetimeUtcFromTimestamp (Get r) buffer v'.
Proof.
  - destruct t as [| | | | | | | | | | | |_subtypes|_itemType]; intros buffer;
      try reflexivity.
    + cbn [Deserialize]. unfold CqlTupleType_Deserialize.
      destruct (PyTuple_New _) as [e|tuple]; [reflexivity|].
      rewrite !forced_version.
      destruct (Z.le_gt_cases 3 v) as [Hv|Hv].
      * assert (3 <= v') as Hv'
          by (apply Z.leb_le; rewrite <- Hclass; apply Z.leb_le; exact Hv).
        rewrite !Z.max_r by lia.
        rewrite (CqlTupleType_drain_versions v v'); [reflexivity|].
        induction _subtypes as [|r rs IH]; cbn [map]; constructor.
        -- intros b. now apply Deserialize_reference_versions.
        -- exact IH.
      * assert (v' < 3) as Hv'
          by (apply Z.leb_gt; rewrite <- Hclass; apply Z.leb_gt; exact Hv).
        rewrite !Z.max_l by lia. reflexivity.
    + cbn [Deserialize]. unfold CqlListType_Deserialize, CqlListType_items,
        CqlListType_itemCount, CqlListType_sizeSize, CqlListType_unpack.
      rewrite Hclass.
      destruct (Consume _ buffer) as [[countData buffer1]|]; [|reflexivity].
      destruct (PyList_New _) as [e|lst]; [reflexivity|].
      apply CqlListType_drain_versions; [exact Hclass|].
      intros b. now apply Deserialize_reference_versions.
  - destruct r as [t|t]; intros buffer; cbn [Get];
      now apply Deserialize_versions.
Qed.

(** X13.  The decoder tells two generations of the protocol apart and no
    more: for each of the fourteen types, nested as it may be, and every
    window, two protocol versions that are both below 3, or both 3 or
    above, give the same result and leave the same buffer. *)
Theorem Deserialize_protocol_generations
    (t : CqlType) (buffer : Buffer) (v v' : Z) :
  (3 <= v /\ 3 <= v') \/ (v < 3 /\ v' < 3) ->
  Deserialize inet_ntop _pythonDecimalType UnmarshalFloat32 UnmarshalFloat64
    PyString_AsDecodedObject_utf8 _pythonUuidType PyFloat_FromDouble_seconds
    _pythonDatetimeUtcFromTimestamp t buffer v
  = Deserialize inet_ntop _pythonDecimalType UnmarshalFloat32 UnmarshalFloat64
      PyString_AsDecodedObject_utf8 _pythonUuidType PyFloat_FromDouble_seconds
      _pythonDatetimeUtcFromTimestamp t buffer v'.
Proof.
  intros Hgen. apply Deserialize_versions.
  destruct (Z.leb_spec 3 v), (Z.leb_spec 3 v'); (reflexivity || lia).
Qed.

Lemma Deserialize_failure (t : CqlType) :
  forall buffer v e buffer',
    Deserialize inet_ntop _pythonDecimalType UnmarshalFloat32 UnmarshalFloat64
      PyString_AsDecodedObject_utf8 _pythonUuidType PyFloat_FromDouble_seconds
      _pythonDatetimeUtcFromTimestamp t buffer v = (inl e, buffer') ->
    exc_type e = PyExc_EOFError \/ exc_type e = PyExc_ValueError \/
    (exc_type e = PyExc_OSError /\
     exists af src, inet_ntop af src INET6_ADDRSTRLEN = None) \/
    exc_type e = PyExc_SystemError \/
    (exists args, _pythonDecimalType args = inl e) \/
    (exists str, PyString_AsDecodedObject_utf8 str = inl e) \/
    (exists args, _pythonUuidType args = inl e) \/
    (exists args, _pythonDatetimeUtcFromTimestamp args = inl e)
with Deserialize_reference_failure (r : CqlTypeReference) :
  forall buffer v e buffer',
    Deserialize inet_ntop _pythonDecimalType UnmarshalFloat32 UnmarshalFloat64
      PyString_AsDecodedObject_utf8 _pythonUuidType PyFloat_FromDouble_seconds
      _pythonDatetimeUtcFromTimestamp (Get r) buffer v = (inl e, buffer') ->
    exc_type e = PyExc_EOFError \/ exc_type e = PyExc_ValueError \/
    (exc_type e = PyExc_OSError /\
     exists af src, inet_ntop af src INET6_ADDRSTRLEN = None) \/
    exc_type e = PyExc_SystemError \/
    (exists args, _pythonDecimalType args = inl e) \/
    (exists str, PyString_AsDecodedObject_utf8 str = inl e) \/
    (exists args, _pythonUuidType args = inl e) \/
    (exists args, _pythonDatetimeUtcFromTimestamp args = inl e).
Proof.
  - destruct t as [| | | | | | | | | | | |_subtypes|_itemType];
      intros buffer v e buffer'; cbn [Deserialize].
    + intros H. left.
      exact (IMPLEMENT_SIMPLE_CQL_TYPE_DESERIALIZE_failure _ _ _ _ _ _ _ H).
    + intros H. left.
      exact (IMPLEMENT_SIMPLE_CQL_TYPE_DESERIALIZE_failure _ _ _ _ _ _ _ H).
    + intros H. left.
      exact (IMPLEMENT_SIMPLE_CQL_TYPE_DESERIALIZE_failure _ _ _ _ _ _ _ H).
    + intros H. left.
      exact (IMPLEMENT_SIMPLE_CQL_TYPE_DESERIALIZE_failure _ _ _ _ _ _ _ H).
    + intros H. left.
      exact (IMPLEMENT_SIMPLE_CQL_TYPE_DESERIALIZE_failure _ _ _ _ _ _ _ H).
    + unfold CqlBytesType_Deserialize.
      destruct (Residual buffer =? 0); [discriminate|].
      destruct (octets _ _). discriminate.
    + unfold CqlUtf8Type_Deserialize.
      destruct (residual_octets buffer) as [data buffer1].
      intros [= H _]. do 5 right. left. eauto.
    + unfold CqlUuidType_Deserialize.
      destruct (residual_octets buffer) as [data buffer1].
      intros [= H _]. do 6 right. left. eauto.
    + unfold CqlInetAddressType_Deserialize.
      destruct (negb _ && negb _)%bool.
      { intros [= <- _]. right. now left. }
      destruct (octets _ _) as [data buffer1].
      destruct (inet_ntop _ _ _) eqn:Hntop; [discriminate|].
      intros [= <- _]. do 2 right. left. split; [reflexivity|eauto].
    + unfold CqlDateType_Deserialize.
      destruct (Consume 8 buffer) as [[data buffer1]|].
      2:{ intros [= <- _]. now left. }
      intros [= H _]. do 7 right. eauto.
    + unfold CqlIntegerType_Deserialize, UnmarshalVarint.
      destruct (octets _ _). discriminate.
    + unfold CqlDecimalType_Deserialize, UnmarshalVarint, PyInt_FromLong.
      destruct (Consume 4 buffer) as [[scaleData buffer1]|].
      2:{ intros [= <- _]. now left. }
      destruct (octets _ _) as [data buffer2].
      cbn [PyString_Format_de map PyNumber_value].
      intros [= H _]. do 4 right. left. eauto.
    + intros H. apply CqlTupleType_Deserialize_failure in H
        as [->|[->|(subtype & itemData & Hin & Hfail)]];
        [right; now left|now left|].
      revert Hin.
      induction _subtypes as [|r rs IH]; cbn [map In]; [intros []|intros [<-|Hin]].
      * destruct (Deserialize inet_ntop _pythonDecimalType UnmarshalFloat32
                    UnmarshalFloat64 PyString_AsDecodedObject_utf8
                    _pythonUuidType PyFloat_FromDouble_seconds
                    _pythonDatetimeUtcFromTimestamp (Get r)
                    (mkBuffer itemData) (Z.max 3 v)) as [res b] eqn:Hcall.
        cbn [fst] in Hfail. subst res.
        exact (Deserialize_reference_failure _ _ _ _ _ Hcall).
      * exact (IH Hin).
    + intros H. apply CqlListType_Deserialize_failure in H
        as [->|[->|[[He _]|(itemData & Hfail)]]];
        [right; now left|now left|do 3 right; now left|].
      destruct (Deserialize inet_ntop _pythonDecimalType UnmarshalFloat32
                  UnmarshalFloat64 PyString_AsDecodedObject_utf8
                  _pythonUuidType PyFloat_FromDouble_seconds
                  _pythonDatetimeUtcFromTimestamp (Get _itemType)
                  (mkBuffer itemData) v) as [res b] eqn:Hcall.
      cbn [fst] in Hfail. subst res.
      exact (Deserialize_reference_failure _ _ _ _ _ Hcall).
  - destruct r as [t|t]; intros buffer v e buffer'; cbn [Get];
      apply Deserialize_failure.
Qed.

(** X14.  On the type graph of all fourteen types, nested as it may be:
    whenever a call fails, the exception is an [EOFError] or a [ValueError]
    raised by the decoder, an [OSError] after the conversion routine failed
    on some address, a [SystemError] from a refused allocation, or the very
    failure that some call of a collaborator returned: the decimal
    constructor, the UTF-8 codec, the UUID constructor or the datetime
    callable.  The decoder raises nothing else. *)
Theorem Deserialize_failure_kinds
    (t : CqlType) (buffer : Buffer) (v : Z) (e : PyErr) (buffer' : Buffer) :
  Deserialize inet_ntop _pythonDecimalType UnmarshalFloat32 UnmarshalFloat64
    PyString_AsDecodedObject_utf8 _pythonUuidType PyFloat_FromDouble_seconds
    _pythonDatetimeUtcFromTimestamp t buffer v = (inl e, buffer') ->
  exc_type e = PyExc_EOFError \/ exc_type e = PyExc_ValueError \/
  (exc_type e = PyExc_OSError /\
   exists af src, inet_ntop af src INET6_ADDRSTRLEN = None) \/
  exc_type e = PyExc_SystemError \/
  (exists args, _pythonDecimalType args = inl e) \/
  (exists str, PyString_AsDecodedObject_utf8 str = inl e) \/
  (exists args, _pythonUuidType args = inl e) \/
  (exists args, _pythonDatetimeUtcFromTimestamp args = inl e).
Proof. apply Deserialize_failure. Qed.

End TypeGraph.

Lemma Deserialize_protocol_generations_witness :
  Deserialize Libc.inet_ntop decimal_Decimal sample_float sample_float
    sample_codec sample_callable sample_seconds sample_callable
    (CqlListType (Owned (CqlTupleType [Borrowed CqlInt32Type; Borrowed CqlDateType])))
    (mkBuffer [x00; x01; x00; x14; x00; x00; x00; x04; x00; x00; x00; x2a;
               x00; x00; x00; x08; x00; x00; x00; x00; x00; x00; x03; xe8]) 1
  = Deserialize Libc.inet_ntop decimal_Decimal sample_float sample_float
      sample_codec sample_callable sample_seconds sample_callable
      (CqlListType (Owned (CqlTupleType [Borrowed CqlInt32Type; Borrowed CqlDateType])))
      (mkBuffer [x00; x01; x00; x14; x00; x00; x00; x04; x00; x00; x00; x2a;
                 x00; x00; x00; x08; x00; x00; x00; x00; x00; x00; x03; xe8]) 2.
Proof.
  apply (Deserialize_protocol_generations Libc.inet_ntop decimal_Decimal
           sample_float sample_float sample_codec sample_callable
           sample_seconds sample_callable
           (CqlListType (Owned (CqlTupleType [Borrowed CqlInt32Type;
                                              Borrowed CqlDateType])))
           (mkBuffer [x00; x01; x00; x14; x00; x00; x00; x04; x00; x00; x00; x2a;
                      x00; x00; x00; x08; x00; x00; x00; x00; x00; x00; x03; xe8])
           1 2).
  right. lia.
Defined.

Lemma Deserialize_failure_kinds_witness :
  exists e,
    Deserialize Libc.inet_ntop decimal_Decimal sample_float sample_float
      sample_codec sample_callable sample_seconds sample_callable
      (CqlTupleType [Owned (CqlListType (Borrowed CqlUtf8Type))])
      (mkBuffer [x00; x00; x00; x09; x00; x00; x00; x01;
                 x00; x00; x00; x01; xff]) 2
    = (inl e, mkBuffer []) /\
    sample_codec (string_of_list_byte [xff]) = inl e /\
    (exc_type e = PyExc_EOFError \/ exc_type e = PyExc_ValueError \/
     (exc_type e = PyExc_OSError /\
      exists af src, Libc.inet_ntop af src INET6_ADDRSTRLEN = None) \/
     exc_type e = PyExc_SystemError \/
     (exists args, decimal_Decimal args = inl e) \/
     (exists str, sample_codec str = inl e) \/
     (exists args, sample_callable args = inl e) \/
     (exists args, sample_callable args = inl e)).
Proof.
  eexists. split; [reflexivity|]. split; [reflexivity|].
  apply (Deserialize_failure_kinds Libc.inet_ntop decimal_Decimal
           sample_float sample_float sample_codec sample_callable
           sample_seconds sample_callable
           (CqlTupleType [Owned (CqlListType (Borrowed CqlUtf8Type))])
           (mkBuffer [x00; x00; x00; x09; x00; x00; x00; x01;
                      x00; x00; x00; x01; xff]) 2 _ (mkBuffer [])).
  reflexivity.
Defined.

(** ** What a composite makes of an element *)

Lemma CqlTupleType_drain_values v (subtypes subtypes' : list Deserializer) :
  Forall2 (fun s s' : Deserializer => forall b, fst (s b v) = fst (s' b v))
    subtypes subtypes' ->
  forall i tuple missing buffer,
    CqlTupleType_drain subtypes i tuple missing buffer v
    = CqlTupleType_drain subtypes' i tuple missing buffer v.
Proof.
  induction 1 as [|s s' ss ss' Hs _ IH]; intros i tuple missing buffer.
  - reflexivity.
  - cbn [CqlTupleType_drain].
    destruct (Consume 4 buffer) as [[sizeData buffer1]|]; [|reflexivity].
    destruct (UnpackInt32 sizeData <? 0); [reflexivity|].
    destruct (Consume _ buffer1) as [[itemData buffer2]|]; [|reflexivity].
    rewrite Hs. destruct (fst _); [reflexivity|]. apply IH.
Qed.

Lemma CqlListType_drain_values v (item item' : Deserializer) :
  (forall b, fst (item b v) = fst (item' b v)) ->
  forall remaining i lst buffer,
    CqlListType_drain item remaining i lst buffer v
    = CqlListType_drain item' remaining i lst buffer v.
Proof.
  intros Hs. induction remaining as [|remaining IH]; intros i lst buffer.
  - reflexivity.
  - cbn [CqlListType_drain].
    destruct (Consume _ buffer) as [[sizeData buffer1]|]; [|reflexivity].
    destruct (to_int32 _ <? 0); [reflexivity|].
    destruct (Consume _ buffer1) as [[itemData buffer2]|]; [|reflexivity].
    rewrite Hs. destruct (fst _); [reflexivity|]. apply IH.
Qed.

(** X15.  A tuple and a list use the value their element decoder returns
    and nothing else of it: two decoders that return the same values give
    the same composite result, however much of the element each consumed.
    Octets that a subtype leaves unread inside an element are passed over
    without an error. *)
Theorem item_residual_ignored :
  (forall (_subtypes _subtypes' : list Deserializer) buffer v,
      Forall2 (fun s s' : Deserializer => forall b u, fst (s b u) = fst (s' b u))
        _subtypes _subtypes' ->
      CqlTupleType_Deserialize _subtypes buffer v
      = CqlTupleType_Deserialize _subtypes' buffer v)
  /\
  (forall (item item' : Deserializer) buffer v,
      (forall b, fst (item b v) = fst (item' b v)) ->
      CqlListType_Deserialize item buffer v
      = CqlListType_Deserialize item' buffer v).
Proof.
  split.
  - intros _subtypes _subtypes' buffer v Hext. unfold CqlTupleType_Deserialize.
    rewrite <- (Forall2_length _ _ _ Hext).
    destruct (PyTuple_New _) as [e|tuple]; [reflexivity|].
    rewrite (CqlTupleType_drain_values _ _subtypes _subtypes'); [reflexivity|].
    eapply Forall2_impl; [exact Hext|]. cbn beta. intros s s' Hs b. apply Hs.
  - intros item item' buffer v Hext. unfold CqlListType_Deserialize.
    destruct (Consume _ buffer) as [[countData buffer1]|]; [|reflexivity].
    unfold CqlListType_items.
    destruct (PyList_New _) as [e|lst]; [reflexivity|].
    now apply CqlListType_drain_values.
Qed.

Lemma item_residual_ignored_witness :
  CqlTupleType_Deserialize [CqlInt32Type_Deserialize]
    (mkBuffer [x00; x00; x00; x06; x00; x00; x00; x2a; xde; xad]) 3
  = CqlTupleType_Deserialize
      [fun buffer v => (fst (CqlInt32Type_Deserialize buffer v), mkBuffer [])]
      (mkBuffer [x00; x00; x00; x06; x00; x00; x00; x2a; xde; xad]) 3
  /\
  CqlTupleType_Deserialize [CqlInt32Type_Deserialize]
    (mkBuffer [x00; x00; x00; x06; x00; x00; x00; x2a; xde; xad]) 3
  = (inr (PyTuple [Some (PyInt 42)]), mkBuffer []).
Proof.
  split; [|reflexivity].
  apply (proj1 item_residual_ignored [CqlInt32Type_Deserialize]
           [fun buffer v => (fst (CqlInt32Type_Deserialize buffer v), mkBuffer [])]).
  constructor; [|constructor]. intros b u. reflexivity.
Defined.
